(** * Index/js/new.js of privly-applications: the post listing page.

    The page lists the posts stored at the content server, previews one of
    them in an iframe, resizes that iframe on request of the embedded
    document and relays the previewed link to the extension.  The handlers of
    [new.js] are embedded as functions on an explicit page state; the
    JavaScript string primitives they call are embedded first. *)

From Stdlib Require Import Ascii String.
From stdpp Require Import gmap strings list fin_maps.

(** ** JavaScript strings and values *)

Module Js.

(** A value read from an object property or an array slot: a string, or
    [undefined] when the property or slot is absent. *)
Definition value := option string.

(** ToString, as applied by [+] and by [RegExp.prototype.test]. *)
Definition to_string (v : value) : string :=
  match v with
  | Some s => s
  | None => "undefined"
  end.

(** [s.startsWith(p)] *)
Fixpoint starts_with (p s : string) : bool :=
  match p, s with
  | EmptyString, _ => true
  | String a p', String b s' => if decide (a = b) then starts_with p' s' else false
  | String _ _, EmptyString => false
  end.

(** The text of [s] from position [n] on: [s.substr(n)] for [0 <= n]. *)
Fixpoint skip (n : nat) (s : string) : string :=
  match n, s with
  | 0, _ => s
  | S n', String _ s' => skip n' s'
  | S _, EmptyString => EmptyString
  end.

(** The first [n] characters of [s]: [s.substr(0, n)]. *)
Fixpoint keep (n : nat) (s : string) : string :=
  match n, s with
  | 0, _ => EmptyString
  | S n', String c s' => String c (keep n' s')
  | S _, EmptyString => EmptyString
  end.

(** [s.indexOf(p)]: the position of the first occurrence of [p], [None]
    for JavaScript's [-1]. *)
Fixpoint indexOf (p s : string) : option nat :=
  if starts_with p s then Some 0
  else match s with
       | EmptyString => None
       | String _ s' => S <$> indexOf p s'
       end.

(** [s.substr(s.indexOf(p) + 1)]: with no occurrence the index is [-1] and
    the whole of [s] is returned. *)
Definition substr_after_indexOf (p s : string) : string :=
  match indexOf p s with
  | Some i => skip (i + 1) s
  | None => skip 0 s
  end.

(** [s.replace(p, r)] for a string pattern [p] and a replacement [r]
    without [$]: only the first occurrence is replaced. *)
Fixpoint replace (p r s : string) : string :=
  if starts_with p s then r +:+ skip (String.length p) s
  else match s with
       | EmptyString => EmptyString
       | String c s' => String c (replace p r s')
       end.

(** [s.split(sep)] for a one-character separator. *)
Fixpoint split (sep : ascii) (s : string) : list string :=
  match s with
  | EmptyString => [EmptyString]
  | String c s' =>
      if decide (c = sep) then EmptyString :: split sep s'
      else match split sep s' with
           | f :: fs => String c f :: fs
           | [] => [String c EmptyString]
           end
  end.

Definition is_letter (c : ascii) : bool :=
  let n := nat_of_ascii c in
  (65 <=? n) && (n <=? 90) || (97 <=? n) && (n <=? 122).

Fixpoint all_letters (s : string) : bool :=
  match s with
  | EmptyString => true
  | String c s' => is_letter c && all_letters s'
  end.

(** The string matches [^[a-zA-Z]+$]: one letter or more, nothing else. *)
Definition letters_only (s : string) : bool :=
  match s with
  | EmptyString => false
  | String _ _ => all_letters s
  end.

(** [/^[a-zA-Z]+$/.test(v)]: [test] converts its argument with ToString
    before matching. *)
Definition test_letters (v : value) : bool := letters_only (to_string v).

End Js.


(** ** The document *)

Module Dom.

(** Leading and trailing spaces of a CSS token are dropped. *)
Fixpoint trim_left (s : string) : string :=
  match s with
  | String " " s' => trim_left s'
  | _ => s
  end.

Fixpoint trim_right (s : string) : string :=
  match s with
  | EmptyString => EmptyString
  | String c s' =>
      match c, trim_right s' with
      | " "%char, EmptyString => EmptyString
      | _, t => String c t
      end
  end.

Definition trim (s : string) : string := trim_right (trim_left s).

(** One [property: value] declaration of a style attribute. *)
Definition declaration (d : string) : option (string * string) :=
  match Js.indexOf ":" d with
  | Some i => Some (trim (Js.keep i d), trim (Js.skip (i + 1) d))
  | None => None
  end.

(** The declarations of a style attribute, later ones overriding. *)
Definition declarations (text : string) : gmap string string :=
  foldl (fun m d => match declaration d with
                    | Some (k, v) => <[k:=v]> m
                    | None => m
                    end) ∅ (Js.split ";" text).

(** An element node.  [attributes] holds every attribute but [style];
    the inline style is held as its declarations, which is what
    [element.style] reads and writes. *)
Record Element := mkElement {
  node : nat;
  tagName : string;
  attributes : gmap string string;
  style : gmap string string
}.

(** [element.setAttribute(name, value)] *)
Definition setAttribute (name value : string) (e : Element) : Element :=
  if decide (name = "style")
  then mkElement (node e) (tagName e) (attributes e) (declarations value)
  else mkElement (node e) (tagName e) (<[name:=value]> (attributes e)) (style e).

(** [element.getAttribute(name)], [None] for [null]. *)
Definition getAttribute (name : string) (e : Element) : Js.value :=
  attributes e !! name.

(** [element.style.height = text], where [parsed] is the browser's reading
    of the text as a value of [height]: the value as the browser serialises
    it, or [None] when the text is not such a value; the assignment is then
    dropped and the style stays as it is. *)
Definition set_style_height (parsed : option string) (e : Element) : Element :=
  match parsed with
  | Some value =>
      mkElement (node e) (tagName e) (attributes e) (<["height":=value]> (style e))
  | None => e
  end.

Definition has_id (id : string) (e : Element) : bool :=
  bool_decide (attributes e !! "id" = Some id).

(** [document.getElementById(id)] over a list of elements in document
    order: the first element with that id, [None] for [null]. *)
Fixpoint getElementById (id : string) (es : list Element) : option Element :=
  match es with
  | [] => None
  | e :: es' => if has_id id e then Some e else getElementById id es'
  end.

(** The element that [getElementById] returns, changed in place. *)
Fixpoint update_by_id (id : string) (f : Element → Element)
    (es : list Element) : list Element :=
  match es with
  | [] => []
  | e :: es' => if has_id id e then f e :: es' else e :: update_by_id id f es'
  end.

End Dom.

Export Dom (Element).

(** ** The Parameter Codec

    [shared/javascripts/parameters.js] is not among the sources, so the
    handlers below take [parameterStringToHash] as a parameter.  The codec
    of this module instantiates it at concrete links. *)

Module Codec.

Definition hex_digit (c : ascii) : option nat :=
  let n := nat_of_ascii c in
  if (48 <=? n) && (n <=? 57) then Some (n - 48)
  else if (65 <=? n) && (n <=? 70) then Some (n - 55)
  else if (97 <=? n) && (n <=? 102) then Some (n - 87)
  else None.

(** Modelled from the spec: percent-decoding of a URL-encoded value, which
    the absent [parameters.js] performs; [None] is a decoding failure
    (malformed percent-encoding).  Every [%XX] stands for the byte [XX]. *)
Fixpoint percent_decode (s : string) : option string :=
  match s with
  | EmptyString => Some EmptyString
  | String "%" (String h (String l s')) =>
      match hex_digit h, hex_digit l, percent_decode s' with
      | Some a, Some b, Some t => Some (String (ascii_of_nat (16 * a + b)) t)
      | _, _, _ => None
      end
  | String "%" _ => None
  | String c s' => String c <$> percent_decode s'
  end.

(** Modelled from the spec: a decoding failure returns the raw string. *)
Definition decode (s : string) : string := default s (percent_decode s).

(** Modelled from the spec: the Parameter Codec of the absent
    [parameters.js].  Given [key=value] pairs joined by [&], possibly
    URL-encoded, it produces the mapping from key to decoded value; no key
    is required. *)
Definition parameterStringToHash (parameterString : string) : gmap string string :=
  foldl (fun hash pair =>
           match Js.indexOf "=" pair with
           | Some i => <[decode (Js.keep i pair) := decode (Js.skip (i + 1) pair)]> hash
           | None => hash
           end) ∅ (Js.split "&" parameterString).

End Codec.

(** ** The browser's reading of a height

    A text assigned to [element.style.height] goes through the CSS parser
    of the browser: a text that is no value of [height] is dropped, a value
    is kept as the browser serialises it.  The handlers below take that
    reading as a parameter, [height_value]; the reading of this module
    instantiates it at the sample pages. *)

Module Css.

Definition is_digit (c : ascii) : bool :=
  let n := nat_of_ascii c in (48 <=? n) && (n <=? 57).

Definition is_space (c : ascii) : bool :=
  let n := nat_of_ascii c in
  (n =? 9) || (n =? 10) || (n =? 12) || (n =? 13) || (n =? 32).

Fixpoint trim_left (s : string) : string :=
  match s with
  | String c s' => if is_space c then trim_left s' else s
  | EmptyString => EmptyString
  end.

Fixpoint trim_right (s : string) : string :=
  match s with
  | EmptyString => EmptyString
  | String c s' =>
      match trim_right s' with
      | EmptyString => if is_space c then EmptyString else String c EmptyString
      | t => String c t
      end
  end.

(** The digits at the head of a text, and the rest of it. *)
Fixpoint digits (s : string) : string * string :=
  match s with
  | String c s' =>
      if is_digit c then let '(d, r) := digits s' in (String c d, r)
      else (EmptyString, s)
  | EmptyString => (EmptyString, EmptyString)
  end.

Fixpoint zeros (n : nat) : string :=
  match n with
  | 0 => EmptyString
  | S n' => String "0" (zeros n')
  end.

Fixpoint drop_leading_zeros (s : string) : string :=
  match s with
  | String "0" s' => drop_leading_zeros s'
  | _ => s
  end.

Fixpoint drop_trailing_zeros (s : string) : string :=
  match s with
  | EmptyString => EmptyString
  | String c s' =>
      match c, drop_trailing_zeros s' with
      | "0"%char, EmptyString => EmptyString
      | _, t => String c t
      end
  end.

(** The number written by a text of digits. *)
Definition number (d : string) : nat :=
  let fix go (acc : nat) (s : string) : nat :=
    match s with
    | String c s' => go (10 * acc + (nat_of_ascii c - 48)) s'
    | EmptyString => acc
    end in
  go 0 d.

(** A sign at the head of a text: whether it is a minus, and the rest. *)
Definition sign (s : string) : bool * string :=
  match s with
  | String "-" s' => (true, s')
  | String "+" s' => (false, s')
  | _ => (false, s)
  end.

(** The fraction at the head of a text, a point followed by a digit at
    least, and the rest. *)
Definition fraction (s : string) : string * string :=
  match s with
  | String "." s' =>
      match digits s' with
      | (EmptyString, _) => (EmptyString, s)
      | (f, r) => (f, r)
      end
  | _ => (EmptyString, s)
  end.

(** The exponent at the head of a text, [e] or [E], a sign or none and a
    digit at least: whether it is negative, its size, and the rest. *)
Definition exponent (s : string) : bool * nat * string :=
  match s with
  | String c s' =>
      if bool_decide (c = "e"%char ∨ c = "E"%char) then
        let '(negative, s'') := sign s' in
        match digits s'' with
        | (EmptyString, _) => (false, 0, s)
        | (d, r) => (negative, number d, r)
        end
      else (false, 0, s)
  | EmptyString => (false, 0, s)
  end.

(** The integer and the fraction digits of a number times ten to the power
    that the exponent says. *)
Definition scale (ip fp : string) (negative : bool) (k : nat) : string * string :=
  if negative then
    let padded := zeros (k - String.length ip) +:+ ip in
    let n := String.length padded - k in
    (Js.keep n padded, Js.skip n padded +:+ fp)
  else
    let padded := fp +:+ zeros (k - String.length fp) in
    (ip +:+ Js.keep k padded, Js.skip k padded).

Definition is_px (unit : string) : bool :=
  bool_decide (unit = "px" ∨ unit = "PX" ∨ unit = "Px" ∨ unit = "pX").

(** Modelled from the CSS syntax: the reading of a text as a value of
    [height], for the texts that are a number with the unit px (or a zero
    without unit), which is what a text ending in "px" can be unless it
    holds a comment, an escape or a function.  White space around it is
    dropped; the number is a sign or none, digits with or without a
    fraction, and an exponent or none; a negative length is no value of
    [height].  The value is serialised as the
    number in plain decimal notation followed by px.  (A browser keeps a
    limited number of digits; the numbers of the samples are short.) *)
Definition height_value (text : string) : option string :=
  let '(minus, s1) := sign (trim_right (trim_left text)) in
  let '(ip, s2) := digits s1 in
  let '(fp, s3) := fraction s2 in
  let '(negative, k, s4) := exponent s3 in
  if bool_decide (ip = EmptyString ∧ fp = EmptyString) then None
  else
    let '(ip', fp') := scale ip fp negative k in
    let whole := match drop_leading_zeros ip' with
                 | EmptyString => "0"
                 | d => d
                 end in
    let part := drop_trailing_zeros fp' in
    let zero := bool_decide (whole = "0" ∧ part = EmptyString) in
    if negb (is_px s4 || (zero && bool_decide (s4 = EmptyString))) then None
    else if minus && negb zero then None
    else Some (whole +:+ match part with
                         | EmptyString => EmptyString
                         | _ => "." +:+ part
                         end +:+ "px").

End Css.

(** ** The page state *)

(** Content of an element set through jQuery's [html] or [text]. *)
Inductive Content :=
  | Html (markup : string)
  | Text (text : string).

(** A post record of the content server. *)
Record Post := mkPost {
  privly_URL : string;
  created_at : string;
  burn_after_date : string;
  updated_at : string;
  privly_application : string;
  public : bool
}.

(** [response.json]: the array of post records, or an object that has no
    [length] (as [{}]). *)
Inductive Json :=
  | JArray (posts : list Post)
  | JObject.

Record Response := mkResponse { json : Json }.

Inductive Cell :=
  | CellString (s : string)
  | CellBool (b : bool).

Definition Row := list Cell.

(** The members of the [callbacks] object. *)
Inductive Callback :=
  | PendingLogin
  | LoginFailure
  | PendingPost
  | PostSubmit
  | CreateError
  | PostCompleted.

(** What the page does to its collaborators: [privlyNetworkService],
    [privlyExtension], the DataTables widget and jQuery's ajax events. *)
Inductive Call :=
  | InitializeNavigation
  | SetInitialContentHook
  | SetMessageSecretHook
  | FirePrivlyMessageSecretEvent
  | AjaxStart
  | AjaxStop
  | InitPrivlyService (setCSRF : bool) (canPost login error : Callback)
  | ShowLoggedInNav
  | DataTable
  | SameOriginGetRequest (url : string) (callback : Callback)
  | FirePrivlyURLEvent (url : Js.value).

(** The page of [Index/new.html], as far as [new.js] reads and writes it.
    The markup is not among the sources: the page is taken to have the
    elements that the script looks up by id, and one container of class
    [privly_iframe], whose children are the only elements that may carry the
    id of the preview. *)
Record Page := mkPage {
  (* DOMContentLoaded was delivered *)
  loaded : bool;
  (* calls into the collaborators, oldest first *)
  calls : list Call;
  (* style attribute of #message_link_button *)
  message_link_button_style : option string;
  (* postUrl listens to clicks on #message_link_button *)
  message_link_button_click : bool;
  (* resizeIframePostedMessage listens to window messages *)
  window_message : bool;
  (* callbacks of a session check that is not answered yet *)
  session_callbacks : option (Callback * Callback * Callback);
  (* callbacks of the GET requests that are not answered yet *)
  fetch_callbacks : list Callback;
  (* content of #messages *)
  messages : Content;
  (* rows of the #posts table, oldest first *)
  posts_rows : list Row;
  (* delegated click handlers for a.view_link on body *)
  view_link_handlers : nat;
  (* classes of #table_col *)
  table_col_class : gset string;
  (* classes of #iframe_col *)
  iframe_col_class : gset string;
  (* inline style of #iframe_col *)
  iframe_col_css : gmap string string;
  (* children of the .privly_iframe container *)
  privly_iframe : list Element;
  (* text of #privly_iframe_title *)
  privly_iframe_title : string;
  (* text of #privly_iframe_meta *)
  privly_iframe_meta : string;
  (* nodes made by document.createElement so far *)
  created_nodes : nat
}.

Definition set_loaded (v : bool) (s : Page) : Page :=
  {| loaded := v; calls := calls s; message_link_button_style :=
     message_link_button_style s; message_link_button_click :=
     message_link_button_click s; window_message := window_message s;
     session_callbacks := session_callbacks s; fetch_callbacks :=
     fetch_callbacks s; messages := messages s; posts_rows := posts_rows s;
     view_link_handlers := view_link_handlers s; table_col_class :=
     table_col_class s; iframe_col_class := iframe_col_class s; iframe_col_css
     := iframe_col_css s; privly_iframe := privly_iframe s; privly_iframe_title
     := privly_iframe_title s; privly_iframe_meta := privly_iframe_meta s;
     created_nodes := created_nodes s |}.

Definition set_calls (v : list Call) (s : Page) : Page :=
  {| loaded := loaded s; calls := v; message_link_button_style :=
     message_link_button_style s; message_link_button_click :=
     message_link_button_click s; window_message := window_message s;
     session_callbacks := session_callbacks s; fetch_callbacks :=
     fetch_callbacks s; messages := messages s; posts_rows := posts_rows s;
     view_link_handlers := view_link_handlers s; table_col_class :=
     table_col_class s; iframe_col_class := iframe_col_class s; iframe_col_css
     := iframe_col_css s; privly_iframe := privly_iframe s; privly_iframe_title
     := privly_iframe_title s; privly_iframe_meta := privly_iframe_meta s;
     created_nodes := created_nodes s |}.

Definition set_message_link_button_style (v : option string) (s : Page) : Page :=
  {| loaded := loaded s; calls := calls s; message_link_button_style := v;
     message_link_button_click := message_link_button_click s; window_message
     := window_message s; session_callbacks := session_callbacks s;
     fetch_callbacks := fetch_callbacks s; messages := messages s; posts_rows
     := posts_rows s; view_link_handlers := view_link_handlers s;
     table_col_class := table_col_class s; iframe_col_class := iframe_col_class
     s; iframe_col_css := iframe_col_css s; privly_iframe := privly_iframe s;
     privly_iframe_title := privly_iframe_title s; privly_iframe_meta :=
     privly_iframe_meta s; created_nodes := created_nodes s |}.

Definition set_message_link_button_click (v : bool) (s : Page) : Page :=
  {| loaded := loaded s; calls := calls s; message_link_button_style :=
     message_link_button_style s; message_link_button_click := v;
     window_message := window_message s; session_callbacks := session_callbacks
     s; fetch_callbacks := fetch_callbacks s; messages := messages s;
     posts_rows := posts_rows s; view_link_handlers := view_link_handlers s;
     table_col_class := table_col_class s; iframe_col_class := iframe_col_class
     s; iframe_col_css := iframe_col_css s; privly_iframe := privly_iframe s;
     privly_iframe_title := privly_iframe_title s; privly_iframe_meta :=
     privly_iframe_meta s; created_nodes := created_nodes s |}.

Definition set_window_message (v : bool) (s : Page) : Page :=
  {| loaded := loaded s; calls := calls s; message_link_button_style :=
     message_link_button_style s; message_link_button_click :=
     message_link_button_click s; window_message := v; session_callbacks :=
     session_callbacks s; fetch_callbacks := fetch_callbacks s; messages :=
     messages s; posts_rows := posts_rows s; view_link_handlers :=
     view_link_handlers s; table_col_class := table_col_class s;
     iframe_col_class := iframe_col_class s; iframe_col_css := iframe_col_css
     s; privly_iframe := privly_iframe s; privly_iframe_title :=
     privly_iframe_title s; privly_iframe_meta := privly_iframe_meta s;
     created_nodes := created_nodes s |}.

Definition set_session_callbacks (v : option (Callback * Callback * Callback)) (s : Page) : Page :=
  {| loaded := loaded s; calls := calls s; message_link_button_style :=
     message_link_button_style s; message_link_button_click :=
     message_link_button_click s; window_message := window_message s;
     session_callbacks := v; fetch_callbacks := fetch_callbacks s; messages :=
     messages s; posts_rows := posts_rows s; view_link_handlers :=
     view_link_handlers s; table_col_class := table_col_class s;
     iframe_col_class := iframe_col_class s; iframe_col_css := iframe_col_css
     s; privly_iframe := privly_iframe s; privly_iframe_title :=
     privly_iframe_title s; privly_iframe_meta := privly_iframe_meta s;
     created_nodes := created_nodes s |}.

Definition set_fetch_callbacks (v : list Callback) (s : Page) : Page :=
  {| loaded := loaded s; calls := calls s; message_link_button_style :=
     message_link_button_style s; message_link_button_click :=
     message_link_button_click s; window_message := window_message s;
     session_callbacks := session_callbacks s; fetch_callbacks := v; messages
     := messages s; posts_rows := posts_rows s; view_link_handlers :=
     view_link_handlers s; table_col_class := table_col_class s;
     iframe_col_class := iframe_col_class s; iframe_col_css := iframe_col_css
     s; privly_iframe := privly_iframe s; privly_iframe_title :=
     privly_iframe_title s; privly_iframe_meta := privly_iframe_meta s;
     created_nodes := created_nodes s |}.

Definition set_messages (v : Content) (s : Page) : Page :=
  {| loaded := loaded s; calls := calls s; message_link_button_style :=
     message_link_button_style s; message_link_button_click :=
     message_link_button_click s; window_message := window_message s;
     session_callbacks := session_callbacks s; fetch_callbacks :=
     fetch_callbacks s; messages := v; posts_rows := posts_rows s;
     view_link_handlers := view_link_handlers s; table_col_class :=
     table_col_class s; iframe_col_class := iframe_col_class s; iframe_col_css
     := iframe_col_css s; privly_iframe := privly_iframe s; privly_iframe_title
     := privly_iframe_title s; privly_iframe_meta := privly_iframe_meta s;
     created_nodes := created_nodes s |}.

Definition set_posts_rows (v : list Row) (s : Page) : Page :=
  {| loaded := loaded s; calls := calls s; message_link_button_style :=
     message_link_button_style s; message_link_button_click :=
     message_link_button_click s; window_message := window_message s;
     session_callbacks := session_callbacks s; fetch_callbacks :=
     fetch_callbacks s; messages := messages s; posts_rows := v;
     view_link_handlers := view_link_handlers s; table_col_class :=
     table_col_class s; iframe_col_class := iframe_col_class s; iframe_col_css
     := iframe_col_css s; privly_iframe := privly_iframe s; privly_iframe_title
     := privly_iframe_title s; privly_iframe_meta := privly_iframe_meta s;
     created_nodes := created_nodes s |}.

Definition set_view_link_handlers (v : nat) (s : Page) : Page :=
  {| loaded := loaded s; calls := calls s; message_link_button_style :=
     message_link_button_style s; message_link_button_click :=
     message_link_button_click s; window_message := window_message s;
     session_callbacks := session_callbacks s; fetch_callbacks :=
     fetch_callbacks s; messages := messages s; posts_rows := posts_rows s;
     view_link_handlers := v; table_col_class := table_col_class s;
     iframe_col_class := iframe_col_class s; iframe_col_css := iframe_col_css
     s; privly_iframe := privly_iframe s; privly_iframe_title :=
     privly_iframe_title s; privly_iframe_meta := privly_iframe_meta s;
     created_nodes := created_nodes s |}.

Definition set_table_col_class (v : gset string) (s : Page) : Page :=
  {| loaded := loaded s; calls := calls s; message_link_button_style :=
     message_link_button_style s; message_link_button_click :=
     message_link_button_click s; window_message := window_message s;
     session_callbacks := session_callbacks s; fetch_callbacks :=
     fetch_callbacks s; messages := messages s; posts_rows := posts_rows s;
     view_link_handlers := view_link_handlers s; table_col_class := v;
     iframe_col_class := iframe_col_class s; iframe_col_css := iframe_col_css
     s; privly_iframe := privly_iframe s; privly_iframe_title :=
     privly_iframe_title s; privly_iframe_meta := privly_iframe_meta s;
     created_nodes := created_nodes s |}.

Definition set_iframe_col_class (v : gset string) (s : Page) : Page :=
  {| loaded := loaded s; calls := calls s; message_link_button_style :=
     message_link_button_style s; message_link_button_click :=
     message_link_button_click s; window_message := window_message s;
     session_callbacks := session_callbacks s; fetch_callbacks :=
     fetch_callbacks s; messages := messages s; posts_rows := posts_rows s;
     view_link_handlers := view_link_handlers s; table_col_class :=
     table_col_class s; iframe_col_class := v; iframe_col_css := iframe_col_css
     s; privly_iframe := privly_iframe s; privly_iframe_title :=
     privly_iframe_title s; privly_iframe_meta := privly_iframe_meta s;
     created_nodes := created_nodes s |}.

Definition set_iframe_col_css (v : gmap string string) (s : Page) : Page :=
  {| loaded := loaded s; calls := calls s; message_link_button_style :=
     message_link_button_style s; message_link_button_click :=
     message_link_button_click s; window_message := window_message s;
     session_callbacks := session_callbacks s; fetch_callbacks :=
     fetch_callbacks s; messages := messages s; posts_rows := posts_rows s;
     view_link_handlers := view_link_handlers s; table_col_class :=
     table_col_class s; iframe_col_class := iframe_col_class s; iframe_col_css
     := v; privly_iframe := privly_iframe s; privly_iframe_title :=
     privly_iframe_title s; privly_iframe_meta := privly_iframe_meta s;
     created_nodes := created_nodes s |}.

Definition set_privly_iframe (v : list Element) (s : Page) : Page :=
  {| loaded := loaded s; calls := calls s; message_link_button_style :=
     message_link_button_style s; message_link_button_click :=
     message_link_button_click s; window_message := window_message s;
     session_callbacks := session_callbacks s; fetch_callbacks :=
     fetch_callbacks s; messages := messages s; posts_rows := posts_rows s;
     view_link_handlers := view_link_handlers s; table_col_class :=
     table_col_class s; iframe_col_class := iframe_col_class s; iframe_col_css
     := iframe_col_css s; privly_iframe := v; privly_iframe_title :=
     privly_iframe_title s; privly_iframe_meta := privly_iframe_meta s;
     created_nodes := created_nodes s |}.

Definition set_privly_iframe_title (v : string) (s : Page) : Page :=
  {| loaded := loaded s; calls := calls s; message_link_button_style :=
     message_link_button_style s; message_link_button_click :=
     message_link_button_click s; window_message := window_message s;
     session_callbacks := session_callbacks s; fetch_callbacks :=
     fetch_callbacks s; messages := messages s; posts_rows := posts_rows s;
     view_link_handlers := view_link_handlers s; table_col_class :=
     table_col_class s; iframe_col_class := iframe_col_class s; iframe_col_css
     := iframe_col_css s; privly_iframe := privly_iframe s; privly_iframe_title
     := v; privly_iframe_meta := privly_iframe_meta s; created_nodes :=
     created_nodes s |}.

Definition set_privly_iframe_meta (v : string) (s : Page) : Page :=
  {| loaded := loaded s; calls := calls s; message_link_button_style :=
     message_link_button_style s; message_link_button_click :=
     message_link_button_click s; window_message := window_message s;
     session_callbacks := session_callbacks s; fetch_callbacks :=
     fetch_callbacks s; messages := messages s; posts_rows := posts_rows s;
     view_link_handlers := view_link_handlers s; table_col_class :=
     table_col_class s; iframe_col_class := iframe_col_class s; iframe_col_css
     := iframe_col_css s; privly_iframe := privly_iframe s; privly_iframe_title
     := privly_iframe_title s; privly_iframe_meta := v; created_nodes :=
     created_nodes s |}.

Definition set_created_nodes (v : nat) (s : Page) : Page :=
  {| loaded := loaded s; calls := calls s; message_link_button_style :=
     message_link_button_style s; message_link_button_click :=
     message_link_button_click s; window_message := window_message s;
     session_callbacks := session_callbacks s; fetch_callbacks :=
     fetch_callbacks s; messages := messages s; posts_rows := posts_rows s;
     view_link_handlers := view_link_handlers s; table_col_class :=
     table_col_class s; iframe_col_class := iframe_col_class s; iframe_col_css
     := iframe_col_css s; privly_iframe := privly_iframe s; privly_iframe_title
     := privly_iframe_title s; privly_iframe_meta := privly_iframe_meta s;
     created_nodes := v |}.

(** A handler returns, or throws a TypeError that nothing catches; what it
    did to the page before throwing stays done. *)
Inductive Outcome :=
  | Returned (s : Page)
  | Thrown (s : Page).

Definition state_of (o : Outcome) : Page :=
  match o with
  | Returned s => s
  | Thrown s => s
  end.

Definition returned (o : Outcome) : bool :=
  match o with
  | Returned _ => true
  | Thrown _ => false
  end.

(** What the browser and the collaborators deliver to the page. *)
Inductive MessageData :=
  | DataString (s : string)
  | DataOther.

Record MessageEvent := mkMessageEvent { origin : string; data : MessageData }.

Inductive Event :=
  | DOMContentLoaded
  | CanPost                       (* second argument of initPrivlyService *)
  | LoginRequired                 (* third argument of initPrivlyService *)
  | SessionError                  (* fourth argument of initPrivlyService *)
  | PostsResponse (response : Response)
  | PostsNoResponse
  | ClickViewLink (href : string)
  | WindowMessage (e : MessageEvent)
  | ClickMessageLinkButton.

(** ** The handlers of new.js *)

(** The collaborators whose code is not among the sources, as the handlers
    use them: [privlyParameters.parameterStringToHash],
    [privlyNetworkService.platformName()] and [contentServerDomain()],
    [window.location.origin], and the browser's reading of a text assigned
    to [style.height]: the value of [height] that the text is, as the
    browser serialises it, or [None] when the text is no such value. *)
Class Collaborators := {
  parameterStringToHash : string → gmap string string;
  platformName : string;
  contentServerDomain : string;
  location_origin : string;
  height_value : string → option string
}.

Section Handlers.

Context `{Collaborators}.

Definition call (c : Call) (s : Page) : Page := set_calls (calls s ++ [c]) s.

(** [messaging.initialize] *)
Definition messaging_initialize (s : Page) : Page :=
  call FirePrivlyMessageSecretEvent
    (call SetMessageSecretHook (call SetInitialContentHook s)).

(** [callbacks.pendingLogin].  The page has its #message_link_button. *)
Definition pendingLogin (s : Page) : Page :=
  let s := call InitializeNavigation s in
  let s := messaging_initialize s in
  let s := if decide (platformName = "HOSTED")
           then set_message_link_button_style (Some "display:none") s
           else set_message_link_button_click true s in
  let s := set_window_message true s in
  let s := call AjaxStop (call AjaxStart s) in
  set_session_callbacks (Some (PendingPost, LoginFailure, LoginFailure))
    (call (InitPrivlyService true PendingPost LoginFailure LoginFailure) s).

Definition sign_in_prompt : string :=
  "We were unable to sign you into your content server please " +:+
  "<a href='" +:+ contentServerDomain +:+ "/users/sign_in' target='_blank'>sign in</a> to " +:+
  "<a href=''>continue</a>".

(** [callbacks.loginFailure] *)
Definition loginFailure (s : Page) : Page :=
  set_messages (Html sign_in_prompt) s.

(** [callbacks.pendingPost] *)
Definition pendingPost (s : Page) : Page :=
  let s := call ShowLoggedInNav s in
  let s := call DataTable s in
  let s := set_fetch_callbacks (fetch_callbacks s ++ [PostCompleted])
             (call (SameOriginGetRequest (contentServerDomain +:+ "/posts") PostCompleted) s) in
  set_messages (Text EmptyString) s.

(** [callbacks.postSubmit] *)
Definition postSubmit (s : Page) : Page := s.

Definition fetch_error_text : string := "There was an error fetching your posts.".

(** [callbacks.createError] *)
Definition createError (s : Page) : Page :=
  set_messages (Text fetch_error_text) s.

(** Lines 113-114: the manage link of a data URL. *)
Definition manageURL (privlyDataURL : string) : string :=
  Js.replace ".json" ".html" (Js.replace "format=json" "format=html" privlyDataURL).

(** The array given to [fnAddData]. *)
Definition post_row (post : Post) (manage : string) : Row :=
  [ CellString ("<a href='#' class='view_link' data-privly-app-link='" +:+
                privly_URL post +:+ "'>View</a>");
    CellString ("<a target='_blank' href=" +:+ manage +:+ ">Manage</a>");
    CellString (created_at post);
    CellString (burn_after_date post);
    CellString (updated_at post);
    CellString (privly_application post);
    CellBool (public post) ].

(** [$('#posts').dataTable().fnAddData(row)] *)
Definition fnAddData (row : Row) (s : Page) : Page :=
  set_posts_rows (posts_rows s ++ [row]) (call DataTable s).

(** The loop of [postCompleted] over [response.json].  A record whose link
    has no [privlyDataURL] makes [privlyDataURL.replace] throw. *)
Fixpoint add_posts (posts : list Post) (s : Page) : Outcome :=
  match posts with
  | [] => Returned s
  | post :: rest =>
      match parameterStringToHash (privly_URL post) !! "privlyDataURL" with
      | Some privlyDataURL =>
          add_posts rest (fnAddData (post_row post (manageURL privlyDataURL)) s)
      | None => Thrown s
      end
  end.

(** [createElement('iframe')] and the [setAttribute] calls of lines
    141-165, in their order. *)
Definition preview_iframe (n : nat) (href app params : string) : Element :=
  foldl (fun e '(name, value) => Dom.setAttribute name value e)
    (Dom.mkElement n "iframe" ∅ ∅)
    [ ("frameborder", "0");
      ("vspace", "0");
      ("hspace", "0");
      ("width", "100%");
      ("marginwidth", "0");
      ("marginheight", "0");
      ("height", "1px");
      ("frameborder", "0");
      ("style", "width: 100%; height: 32px; " +:+ "overflow: hidden;");
      ("scrolling", "no");
      ("overflow", "hidden");
      ("data-privly-accept-resize", "true");
      ("data-canonical-href", href);
      ("src", "../" +:+ app +:+ "/show.html?" +:+ params);
      ("id", "ifrm0");
      ("name", "ifrm0") ].

(** jQuery's [text(value)] sets the text, except that [text(undefined)]
    sets nothing. *)
Definition jq_text (v : Js.value) (old : string) : string :=
  match v with
  | Some t => t
  | None => old
  end.

(** The handler of lines 125-175, run for a click on a View link whose
    [data-privly-app-link] is [href]. *)
Definition view_link_click (href : string) (s : Page) : Page :=
  let s := set_table_col_class (table_col_class s ∖ {["col-lg-12"]}) s in
  let s := set_iframe_col_class ({["col-lg-4"]} ∪ iframe_col_class s) s in
  let s := set_table_col_class ({["col-lg-8"]} ∪ table_col_class s) s in
  let s := set_iframe_col_css (<["display":="inherit"]> (iframe_col_css s)) s in
  let params := Js.substr_after_indexOf "?" href in
  let app := parameterStringToHash params !! "privlyApp" in
  if Js.test_letters app then
    let iFrame := preview_iframe (created_nodes s) href (Js.to_string app) params in
    let s := set_created_nodes (S (created_nodes s)) s in
    let s := set_privly_iframe [] s in
    let s := set_privly_iframe (privly_iframe s ++ [iFrame]) s in
    let s := set_privly_iframe_title (jq_text app (privly_iframe_title s)) s in
    set_privly_iframe_meta "The App's contents are below." s
  else s.

(** [callbacks.postCompleted] *)
Definition postCompleted (response : Response) (s : Page) : Outcome :=
  let rows := match json response with
              | JArray posts => add_posts posts s
              | JObject => Returned s
              end in
  match rows with
  | Returned s => Returned (set_view_link_handlers (S (view_link_handlers s)) s)
  | Thrown s => Thrown s
  end.

(** [e.data.split(",")[1] + "px"] *)
Definition posted_height (d : string) : string :=
  Js.to_string (Js.split "," d !! 1) +:+ "px".

(** [resizeIframePostedMessage] *)
Definition resizeIframePostedMessage (e : MessageEvent) (s : Page) : Outcome :=
  if decide (origin e = location_origin) then
    match Dom.getElementById "ifrm0" (privly_iframe s) with
    | None => Thrown s
    | Some _ =>
        match data e with
        | DataString d =>
            Returned (set_privly_iframe
                        (Dom.update_by_id "ifrm0"
                           (Dom.set_style_height (height_value (posted_height d)))
                           (privly_iframe s)) s)
        | DataOther => Thrown s
        end
    end
  else Returned s.

(** [postUrl] *)
Definition postUrl (s : Page) : Outcome :=
  match Dom.getElementById "ifrm0" (privly_iframe s) with
  | None => Thrown s
  | Some e => Returned (call (FirePrivlyURLEvent (Dom.getAttribute "data-canonical-href" e)) s)
  end.

(** ** Delivery of events *)

(** A collaborator calls a member of [callbacks]; [response] is the
    argument it passes, which only [postCompleted] reads. *)
Definition invoke (c : Callback) (response : option Response) (s : Page) : Outcome :=
  match c with
  | PendingLogin => Returned (pendingLogin s)
  | LoginFailure => Returned (loginFailure s)
  | PendingPost => Returned (pendingPost s)
  | PostSubmit => Returned (postSubmit s)
  | CreateError => Returned (createError s)
  | PostCompleted =>
      match response with
      | Some r => postCompleted r s
      | None => Thrown s
      end
  end.

(** Modelled from the spec: the network service, whose code is absent,
    answers a request once at most, through one of the callbacks it was
    given with that request, and answers the requests for the post list
    in their order; the browser delivers DOMContentLoaded once, to the
    listener of line 238, and delivers a click or a message only to a
    listener that was added.  A click on a View link runs every handler
    attached to the body for it. *)
Definition deliver (ev : Event) (s : Page) : Outcome :=
  match ev with
  | DOMContentLoaded =>
      if loaded s then Returned s else invoke PendingLogin None (set_loaded true s)
  | CanPost =>
      match session_callbacks s with
      | Some (c, _, _) => invoke c None (set_session_callbacks None s)
      | None => Returned s
      end
  | LoginRequired =>
      match session_callbacks s with
      | Some (_, c, _) => invoke c None (set_session_callbacks None s)
      | None => Returned s
      end
  | SessionError =>
      match session_callbacks s with
      | Some (_, _, c) => invoke c None (set_session_callbacks None s)
      | None => Returned s
      end
  | PostsResponse response =>
      match fetch_callbacks s with
      | c :: cs => invoke c (Some response) (set_fetch_callbacks cs s)
      | [] => Returned s
      end
  | PostsNoResponse => Returned (set_fetch_callbacks (tail (fetch_callbacks s)) s)
  | ClickViewLink href =>
      Returned (Nat.iter (view_link_handlers s) (view_link_click href) s)
  | WindowMessage e =>
      if window_message s then resizeIframePostedMessage e s else Returned s
  | ClickMessageLinkButton =>
      if message_link_button_click s then postUrl s else Returned s
  end.

Definition run (evs : list Event) (s : Page) : Page :=
  foldl (fun s ev => state_of (deliver ev s)) s evs.

(** [postCompleted] called with one response after the other, up to the
    first call that throws. *)
Fixpoint postCompleted_each (responses : list Response) (s : Page) : Outcome :=
  match responses with
  | [] => Returned s
  | r :: rest =>
      match postCompleted r s with
      | Returned s' => postCompleted_each rest s'
      | Thrown s' => Thrown s'
      end
  end.

(** Every record of the response has a link with a [privlyDataURL]. *)
Definition has_data_urls (r : Response) : bool :=
  match json r with
  | JArray posts =>
      forallb (fun post => bool_decide
                 (is_Some (parameterStringToHash (privly_URL post) !! "privlyDataURL")))
              posts
  | JObject => true
  end.

(** The preview iframes of the page: the elements of the container that
    carry the preview's id. *)
Definition previews (s : Page) : list Element :=
  filter (fun e => Dom.has_id "ifrm0" e = true) (privly_iframe s).

(** The page as parsed, before DOMContentLoaded: nothing listens, nothing
    is requested. *)
Definition fresh (s : Page) : bool :=
  negb (loaded s) && bool_decide (session_callbacks s = None)
  && bool_decide (fetch_callbacks s = []) && negb (message_link_button_click s)
  && negb (window_message s) && (view_link_handlers s =? 0).

End Handlers.

(** The collaborators of a hosted page and of a page run by an extension,
    with the codec of [Codec] and the reading of [Css]. *)
Definition hosted : Collaborators :=
  {| parameterStringToHash := Codec.parameterStringToHash;
     platformName := "HOSTED";
     contentServerDomain := "https://priv.ly";
     location_origin := "https://priv.ly";
     height_value := Css.height_value |}.

Definition extension : Collaborators :=
  {| parameterStringToHash := Codec.parameterStringToHash;
     platformName := "CHROME";
     contentServerDomain := "https://priv.ly";
     location_origin := "chrome-extension://privly";
     height_value := Css.height_value |}.

(** An empty page: no message, no row, an empty preview column. *)
Definition blank : Page :=
  {| loaded := false; calls := []; message_link_button_style := None;
     message_link_button_click := false; window_message := false;
     session_callbacks := None; fetch_callbacks := []; messages := Text EmptyString;
     posts_rows := []; view_link_handlers := 0;
     table_col_class := {["col-lg-12"]}; iframe_col_class := ∅;
     iframe_col_css := {["display" := "none"]}; privly_iframe := [];
     privly_iframe_title := EmptyString; privly_iframe_meta := EmptyString; created_nodes := 0 |}.

Definition sample_link : string :=
  "https://priv.ly/posts/1?privlyApp=PlainPost&privlyInject1=true&privlyDataURL=https%3A%2F%2Fpriv.ly%2Fposts%2F1.json%3Fx%3D1".

Definition sample_post : Post :=
  mkPost sample_link "2014-01-01" "2014-02-01" "2014-01-02" "PlainPost" true.

(** A post whose data URL names its format in the query string. *)
Definition format_post : Post :=
  mkPost "https://priv.ly/posts/2?privlyApp=PlainPost&privlyDataURL=https%3A%2F%2Fpriv.ly%2Fposts%2F2%3Fformat%3Djson%26x%3D1"
         "2014-03-01" "2014-04-01" "2014-03-02" "PlainPost" false.

(** The page of an extension once the post list has arrived, and once the
    View link of its row has been clicked. *)
Definition listed : Page :=
  @run extension
    [DOMContentLoaded; CanPost; PostsResponse (mkResponse (JArray [sample_post]))] blank.

Definition previewing : Page := @run extension [ClickViewLink sample_link] listed.

(** The resize message of the embedded document, and the same message from
    another origin. *)
Definition own_message : MessageEvent :=
  mkMessageEvent "chrome-extension://privly" (DataString "ignored,240").

Definition foreign_message : MessageEvent :=
  mkMessageEvent "https://attacker.example" (DataString "ignored,240").


(** ** The states of the application

    The states listed at the head of [new.js], as far as the page reaches
    them, told apart by what the page holds. *)

Inductive Phase :=
  | Unloaded            (* before DOMContentLoaded *)
  | PendingLoginCheck   (* state 1 *)
  | FailureToLogin      (* state 2 *)
  | Posting.            (* states 3 and 6 *)

(** What the state callbacks read and write of the controller. *)
Definition controller (s : Page) :=
  (loaded s, session_callbacks s, fetch_callbacks s, messages s).

(** What the preview handlers read and write. *)
Definition preview (s : Page) :=
  (privly_iframe s, created_nodes s, privly_iframe_title s, privly_iframe_meta s).

Section Phases.

Context `{Collaborators}.

Definition wired : option (Callback * Callback * Callback) :=
  Some (PendingPost, LoginFailure, LoginFailure).

(** [in_phase s0 ph s]: the page that was parsed as [s0] is now [s], in
    state [ph]. *)
Definition in_phase (s0 : Page) (ph : Phase) (s : Page) : Prop :=
  match ph with
  | Unloaded =>
      controller s = (false, None, [], messages s0) ∧ posts_rows s = posts_rows s0
  | PendingLoginCheck =>
      controller s = (true, wired, [], messages s0) ∧ posts_rows s = posts_rows s0
  | FailureToLogin =>
      controller s = (true, None, [], Html sign_in_prompt) ∧ posts_rows s = posts_rows s0
  | Posting =>
      loaded s = true ∧ session_callbacks s = None ∧ messages s = Text EmptyString
      ∧ Forall (eq PostCompleted) (fetch_callbacks s)
  end.

Definition phase_after (ph : Phase) (ev : Event) : Phase :=
  match ph, ev with
  | Unloaded, DOMContentLoaded => PendingLoginCheck
  | PendingLoginCheck, CanPost => Posting
  | PendingLoginCheck, (LoginRequired | SessionError) => FailureToLogin
  | _, _ => ph
  end.

End Phases.

(** A post whose link carries no data URL, a resize message whose data has
    no comma, and a link that is a bare parameter string. *)
Definition bare_post : Post :=
  mkPost "https://priv.ly/posts/4?privlyApp=PlainPost"
         "2014-05-01" "2014-06-01" "2014-05-02" "PlainPost" true.

Definition bare_message : MessageEvent :=
  mkMessageEvent "chrome-extension://privly" (DataString "240").


Definition bare_link : string := "privlyApp=PlainPost&privlyInject1=true".

(** A resize message whose second field is negative, and the page once two
    more answers to the request for the post list have been handled. *)
Definition negative_message : MessageEvent :=
  mkMessageEvent "chrome-extension://privly" (DataString "x,-5").

Definition relisted : Page :=
  state_of (@postCompleted_each extension
              [mkResponse (JArray [sample_post]); mkResponse (JArray [format_post])] listed).

(** ** What the collaborators see of the page *)

(** The link given to [privlyExtension.firePrivlyURLEvent] by a call. *)
Definition relayed_url (c : Call) : option Js.value :=
  match c with
  | FirePrivlyURLEvent url => Some url
  | _ => None
  end.

(** The links relayed to the extension so far, oldest first. *)
Definition relayed (s : Page) : list Js.value := omap relayed_url (calls s).

Definition is_request (c : Call) : bool :=
  match c with
  | InitPrivlyService _ _ _ _ | SameOriginGetRequest _ _ => true
  | _ => false
  end.

(** The requests made to the network service so far, oldest first. *)
Definition requests (s : Page) : list Call :=
  filter (fun c => is_request c = true) (calls s).

(** The listeners and the button that [pendingLogin] sets up. *)
Definition wiring (s : Page) :=
  (message_link_button_style s, message_link_button_click s, window_message s).

(** The layout of the two columns. *)
Definition layout (s : Page) := (table_col_class s, iframe_col_class s, iframe_col_css s).

Definition is_handshake (c : Call) : bool :=
  match c with
  | SetInitialContentHook | SetMessageSecretHook | FirePrivlyMessageSecretEvent => true
  | _ => false
  end.

(** What [messaging.initialize] has done to [privlyExtension] so far. *)
Definition handshake (s : Page) : list Call :=
  filter (fun c => is_handshake c = true) (calls s).

Section Observations.

Context `{Collaborators}.

(** The row that the loop of [postCompleted] adds for a record, [None] when
    the record's link has no [privlyDataURL]. *)
Definition row_of (post : Post) : option Row :=
  (fun privlyDataURL => post_row post (manageURL privlyDataURL))
    <$> parameterStringToHash (privly_URL post) !! "privlyDataURL".

(** The requests that a member of [callbacks] makes when it runs. *)
Definition issued_by (c : Callback) : list Call :=
  match c with
  | PendingLogin => [InitPrivlyService true PendingPost LoginFailure LoginFailure]
  | PendingPost => [SameOriginGetRequest (contentServerDomain +:+ "/posts") PostCompleted]
  | _ => []
  end.

(** The requests that a page in state [ph] has made since it was parsed. *)
Definition requests_of (ph : Phase) : list Call :=
  match ph with
  | Unloaded => []
  | PendingLoginCheck | FailureToLogin => issued_by PendingLogin
  | Posting => issued_by PendingLogin ++ issued_by PendingPost
  end.

(** The member of [callbacks], if any, that the delivery of [ev] runs. *)
Definition callback_of (ev : Event) (s : Page) : option Callback :=
  match ev with
  | DOMContentLoaded => if loaded s then None else Some PendingLogin
  | CanPost => (fun '(c, _, _) => c) <$> session_callbacks s
  | LoginRequired => (fun '(_, c, _) => c) <$> session_callbacks s
  | SessionError => (fun '(_, _, c) => c) <$> session_callbacks s
  | PostsResponse _ => head (fetch_callbacks s)
  | _ => None
  end.

(** The listeners and the button once [pendingLogin] has run on a page that
    was parsed as [s0]. *)
Definition wiring_of (ph : Phase) (s0 : Page) :=
  match ph with
  | Unloaded => wiring s0
  | _ => if decide (platformName = "HOSTED")
         then (Some "display:none", message_link_button_click s0, true)
         else (message_link_button_style s0, true, true)
  end.

End Observations.

(** * Properties *)

(** ** Facts about the string primitives *)

Module JsFacts.
Import Js.

Lemma app_cons c s t : String c s +:+ t = String c (s +:+ t).
Proof. reflexivity. Qed.

Lemma app_empty_l s : EmptyString +:+ s = s.
Proof. reflexivity. Qed.

Lemma keep_app a b : keep (String.length a) (a +:+ b) = a.
Proof.
  induction a as [|c a IH]; [by destruct b|].
  rewrite app_cons. simpl. by rewrite IH.
Qed.

Lemma skip_app a b : skip (String.length a) (a +:+ b) = b.
Proof. induction a as [|c a IH]; [done|]. by rewrite app_cons. Qed.

Lemma skip_add n m s : skip (n + m) s = skip m (skip n s).
Proof.
  revert s. induction n as [|n IH]; intros s; [done|].
  destruct s as [|c s]; simpl; [by destruct m|apply IH].
Qed.

(** [replace] rewrites the occurrence that [indexOf] finds, and nothing
    else. *)
Lemma replace_indexOf p r s i :
  indexOf p s = Some i →
  replace p r s = keep i s +:+ r +:+ skip (i + String.length p) s.
Proof.
  revert i. induction s as [|c s IH]; intros i; simpl.
  - destruct (starts_with p EmptyString); [|done].
    intros [= <-]. done.
  - destruct (starts_with p (String c s)).
    + intros [= <-]. done.
    + destruct (indexOf p s) as [j|] eqn:Hj; [|done].
      intros [= <-]. simpl. rewrite app_cons. f_equal. by apply IH.
Qed.

Lemma replace_absent p r s : indexOf p s = None → replace p r s = s.
Proof.
  induction s as [|c s IH]; simpl.
  - by destruct (starts_with p EmptyString).
  - destruct (starts_with p (String c s)); [done|].
    destruct (indexOf p s); [done|]. intros _. f_equal. by apply IH.
Qed.

(** The first occurrence of a character that does not occur in [pre]. *)
Lemma indexOf_char_app c pre post :
  indexOf (String c EmptyString) pre = None →
  indexOf (String c EmptyString) (pre +:+ String c post) = Some (String.length pre).
Proof.
  induction pre as [|d pre IH].
  - intros _. rewrite app_empty_l. simpl. by rewrite decide_True.
  - rewrite app_cons. simpl.
    destruct (decide (c = d)); [done|].
    destruct (indexOf (String c EmptyString) pre); [done|].
    intros _. by rewrite IH.
Qed.

Lemma substr_after_first c pre post :
  indexOf (String c EmptyString) pre = None →
  substr_after_indexOf (String c EmptyString) (pre +:+ String c EmptyString +:+ post) = post.
Proof.
  intros Hpre. unfold substr_after_indexOf.
  change (String c EmptyString +:+ post) with (String c post).
  rewrite (indexOf_char_app _ _ _ Hpre).
  rewrite skip_add, skip_app. done.
Qed.

Example indexOf_first : indexOf "?" "a/b?c=d?e" = Some 3.
Proof. reflexivity. Qed.

Example substr_after_first_ex : substr_after_indexOf "?" "a/b?c=d?e" = "c=d?e".
Proof. reflexivity. Qed.

Example substr_whole : substr_after_indexOf "?" "abc" = "abc".
Proof. reflexivity. Qed.

Example replace_first_only :
  replace ".json" ".html" "p/1.json?x=1.json" = "p/1.html?x=1.json".
Proof. reflexivity. Qed.

Example split_fields : split "," "ignored,240,,x" = ["ignored"; "240"; EmptyString; "x"].
Proof. reflexivity. Qed.

Example split_empty : split "," EmptyString = [EmptyString].
Proof. reflexivity. Qed.

Example test_letters_values :
  test_letters None = true ∧ test_letters (Some "foo/bar") = false
  ∧ test_letters (Some "<script>") = false ∧ test_letters (Some EmptyString) = false
  ∧ test_letters (Some "PlainPost") = true.
Proof. done. Qed.

End JsFacts.

(** ** What each handler leaves alone *)

Section Frames.

Context `{Collaborators}.

Lemma view_link_click_controller href s :
  controller (view_link_click href s) = controller s.
Proof. unfold view_link_click. by destruct (Js.test_letters _). Qed.

Lemma view_link_click_table href s :
  posts_rows (view_link_click href s) = posts_rows s
  ∧ view_link_handlers (view_link_click href s) = view_link_handlers s
  ∧ calls (view_link_click href s) = calls s.
Proof. unfold view_link_click. by destruct (Js.test_letters _). Qed.

Lemma clicks_controller n href s :
  controller (Nat.iter n (view_link_click href) s) = controller s.
Proof.
  induction n as [|n IH]; [done|].
  simpl. by rewrite view_link_click_controller.
Qed.

Lemma clicks_table n href s :
  posts_rows (Nat.iter n (view_link_click href) s) = posts_rows s
  ∧ view_link_handlers (Nat.iter n (view_link_click href) s) = view_link_handlers s.
Proof.
  induction n as [|n IH]; [done|].
  simpl. destruct (view_link_click_table href (Nat.iter n (view_link_click href) s))
    as (-> & -> & _). done.
Qed.

Lemma add_posts_frame posts s :
  controller (state_of (add_posts posts s)) = controller s
  ∧ preview (state_of (add_posts posts s)) = preview s
  ∧ view_link_handlers (state_of (add_posts posts s)) = view_link_handlers s.
Proof.
  revert s. induction posts as [|post rest IH]; intros s; [done|].
  simpl. destruct (parameterStringToHash _ !! _); [|done].
  destruct (IH (fnAddData (post_row post (manageURL s0)) s)) as (-> & -> & ->).
  done.
Qed.

Lemma postCompleted_frame r s :
  controller (state_of (postCompleted r s)) = controller s
  ∧ preview (state_of (postCompleted r s)) = preview s.
Proof.
  unfold postCompleted. destruct (json r) as [posts|]; [|done].
  pose proof (add_posts_frame posts s) as (Hc & Hp & _).
  by destruct (add_posts posts s).
Qed.

Lemma resize_frame e s :
  controller (state_of (resizeIframePostedMessage e s)) = controller s
  ∧ posts_rows (state_of (resizeIframePostedMessage e s)) = posts_rows s
  ∧ view_link_handlers (state_of (resizeIframePostedMessage e s)) = view_link_handlers s.
Proof.
  unfold resizeIframePostedMessage.
  destruct (decide _); [|done].
  destruct (Dom.getElementById _ _); [|done].
  by destruct (data e).
Qed.

Lemma postUrl_frame s :
  controller (state_of (postUrl s)) = controller s
  ∧ posts_rows (state_of (postUrl s)) = posts_rows s
  ∧ preview (state_of (postUrl s)) = preview s
  ∧ view_link_handlers (state_of (postUrl s)) = view_link_handlers s.
Proof. unfold postUrl. by destruct (Dom.getElementById _ _). Qed.

End Frames.

(** ** The page moves through the states *)

Section Controller.

Context `{Collaborators}.

Lemma deliver_click_controller href s :
  controller (state_of (deliver (ClickViewLink href) s)) = controller s
  ∧ posts_rows (state_of (deliver (ClickViewLink href) s)) = posts_rows s.
Proof.
  simpl. split; [apply clicks_controller|apply clicks_table].
Qed.

Lemma deliver_message_controller e s :
  controller (state_of (deliver (WindowMessage e) s)) = controller s
  ∧ posts_rows (state_of (deliver (WindowMessage e) s)) = posts_rows s.
Proof.
  simpl. destruct (window_message s); [|done].
  destruct (resize_frame e s) as (? & ? & _). done.
Qed.

Lemma deliver_button_controller s :
  controller (state_of (deliver ClickMessageLinkButton s)) = controller s
  ∧ posts_rows (state_of (deliver ClickMessageLinkButton s)) = posts_rows s.
Proof.
  simpl. destruct (message_link_button_click s); [|done].
  destruct (postUrl_frame s) as (? & ? & _). done.
Qed.

Lemma pendingLogin_controller s :
  controller (pendingLogin s) = (loaded s, wired, fetch_callbacks s, messages s)
  ∧ posts_rows (pendingLogin s) = posts_rows s.
Proof. unfold pendingLogin. by destruct (decide _). Qed.

Lemma in_phase_controller s0 ph s s' :
  controller s' = controller s → posts_rows s' = posts_rows s →
  in_phase s0 ph s → in_phase s0 ph s'.
Proof.
  unfold in_phase. intros Hc Hr. rewrite Hr.
  destruct ph; rewrite ?Hc; try done.
  unfold controller in Hc. injection Hc as -> -> -> ->. done.
Qed.

(** One event takes a page in state [ph] to a page in state
    [phase_after ph ev]. *)
Lemma phase_step s0 ph ev s :
  in_phase s0 ph s → in_phase s0 (phase_after ph ev) (state_of (deliver ev s)).
Proof.
  intros Hin.
  assert (∀ s', controller s' = controller s → posts_rows s' = posts_rows s →
                in_phase s0 ph s') as Hsame.
  { intros s' Hc Hr. by eapply in_phase_controller. }
  destruct ev as [| | | |r| |href|e|].
  - (* DOMContentLoaded *)
    unfold deliver. destruct (loaded s) eqn:Hl.
    { replace (phase_after ph DOMContentLoaded) with ph; [done|].
      destruct ph; try done. destruct Hin as [[= Hl' _ _ _] _]. congruence. }
    destruct ph; cbn [phase_after].
    + destruct Hin as [[= _ Hs Hf Hm] Hr]. unfold invoke, state_of.
      destruct (pendingLogin_controller (set_loaded true s)) as [Hc Hp].
      split; [|by rewrite Hp]. rewrite Hc. simpl. by rewrite Hf, Hm.
    + destruct Hin as [[= Hl' _ _ _] _]. congruence.
    + destruct Hin as [[= Hl' _ _ _] _]. congruence.
    + destruct Hin as [Hl' _]. congruence.
  - (* CanPost *)
    unfold deliver. destruct (session_callbacks s) as [[[c1 c2] c3]|] eqn:Hs.
    2:{ replace (phase_after ph CanPost) with ph; [done|].
        destruct ph; try done. destruct Hin as [[= _ Hs' _ _] _]. unfold wired in *. congruence. }
    destruct ph; cbn [phase_after].
    + destruct Hin as [[= _ Hs' _ _] _]. unfold wired in *. congruence.
    + destruct Hin as [[= Hl Hs' Hf Hm] Hr].
      rewrite Hs in Hs'. unfold wired in Hs'. injection Hs' as -> -> ->.
      simpl. rewrite Hl, Hf. repeat split; try done. by repeat constructor.
    + destruct Hin as [[= _ Hs' _ _] _]. unfold wired in *. congruence.
    + destruct Hin as (_ & Hs' & _). congruence.
  - (* LoginRequired *)
    unfold deliver. destruct (session_callbacks s) as [[[c1 c2] c3]|] eqn:Hs.
    2:{ replace (phase_after ph LoginRequired) with ph; [done|].
        destruct ph; try done. destruct Hin as [[= _ Hs' _ _] _]. unfold wired in *. congruence. }
    destruct ph; cbn [phase_after].
    + destruct Hin as [[= _ Hs' _ _] _]. unfold wired in *. congruence.
    + destruct Hin as [[= Hl Hs' Hf Hm] Hr].
      rewrite Hs in Hs'. unfold wired in Hs'. injection Hs' as -> -> ->.
      simpl. unfold controller. simpl. by rewrite Hl, Hf.
    + destruct Hin as [[= _ Hs' _ _] _]. unfold wired in *. congruence.
    + destruct Hin as (_ & Hs' & _). congruence.
  - (* SessionError *)
    unfold deliver. destruct (session_callbacks s) as [[[c1 c2] c3]|] eqn:Hs.
    2:{ replace (phase_after ph SessionError) with ph; [done|].
        destruct ph; try done. destruct Hin as [[= _ Hs' _ _] _]. unfold wired in *. congruence. }
    destruct ph; cbn [phase_after].
    + destruct Hin as [[= _ Hs' _ _] _]. unfold wired in *. congruence.
    + destruct Hin as [[= Hl Hs' Hf Hm] Hr].
      rewrite Hs in Hs'. unfold wired in Hs'. injection Hs' as -> -> ->.
      simpl. unfold controller. simpl. by rewrite Hl, Hf.
    + destruct Hin as [[= _ Hs' _ _] _]. unfold wired in *. congruence.
    + destruct Hin as (_ & Hs' & _). congruence.
  - (* PostsResponse *)
    replace (phase_after ph (PostsResponse r)) with ph by (by destruct ph).
    unfold deliver. destruct (fetch_callbacks s) as [|c cs] eqn:Hcs; [done|].
    destruct ph; try (destruct Hin as [[= _ _ Hf _] _]; congruence).
    destruct Hin as (Hl & Hs & Hm & Hf).
    rewrite Hcs in Hf. apply Forall_cons in Hf as [<- Hf].
    unfold invoke.
    destruct (postCompleted_frame r (set_fetch_callbacks cs s)) as [[= Hl' Hs' Hf' Hm'] _].
    cbn [in_phase]. rewrite Hl', Hs', Hf', Hm'. done.
  - (* PostsNoResponse *)
    replace (phase_after ph PostsNoResponse) with ph by (by destruct ph).
    unfold deliver, state_of.
    destruct ph.
    + destruct Hin as [[= Hl Hs Hf Hm] Hr]. apply Hsame; [|done].
      unfold controller. simpl. by rewrite Hf.
    + destruct Hin as [[= Hl Hs Hf Hm] Hr]. apply Hsame; [|done].
      unfold controller. simpl. by rewrite Hf.
    + destruct Hin as [[= Hl Hs Hf Hm] Hr]. apply Hsame; [|done].
      unfold controller. simpl. by rewrite Hf.
    + destruct Hin as (Hl & Hs & Hm & Hf). repeat split; try done.
      simpl. destruct (fetch_callbacks s); [done|]. by apply Forall_cons in Hf as [_ Hf].
  - replace (phase_after ph (ClickViewLink href)) with ph by (by destruct ph).
    destruct (deliver_click_controller href s). by apply Hsame.
  - replace (phase_after ph (WindowMessage e)) with ph by (by destruct ph).
    destruct (deliver_message_controller e s). by apply Hsame.
  - replace (phase_after ph ClickMessageLinkButton) with ph by (by destruct ph).
    destruct (deliver_button_controller s). by apply Hsame.
Qed.

Lemma fresh_unloaded s : fresh s = true → in_phase s Unloaded s.
Proof.
  unfold fresh. rewrite !andb_true_iff, !negb_true_iff, !bool_decide_eq_true.
  intros (((((Hl & Hs) & Hf) & _) & _) & _).
  simpl. unfold controller. by rewrite Hl, Hs, Hf.
Qed.

(** Whatever is delivered, the page is in one of the four states. *)
Lemma run_phase s0 ph evs s :
  in_phase s0 ph s → in_phase s0 (foldl phase_after ph evs) (run evs s).
Proof.
  revert ph s. induction evs as [|ev evs IH]; intros ph s Hin; [done|].
  simpl. apply IH. by apply phase_step.
Qed.

End Controller.

(** ** The preview iframe *)

Section Preview.

Context `{Collaborators}.

Lemma setAttribute_other name value e :
  name ≠ "style" →
  Dom.setAttribute name value e
  = Dom.mkElement (Dom.node e) (Dom.tagName e)
      (<[name:=value]> (Dom.attributes e)) (Dom.style e).
Proof. intros Hn. unfold Dom.setAttribute. by rewrite decide_False. Qed.

Lemma setAttribute_style value e :
  Dom.setAttribute "style" value e
  = Dom.mkElement (Dom.node e) (Dom.tagName e) (Dom.attributes e)
      (Dom.declarations value).
Proof. reflexivity. Qed.

Ltac set_attributes :=
  unfold preview_iframe; cbn [foldl]; rewrite !setAttribute_style;
  repeat (rewrite setAttribute_other by discriminate;
          cbn [Dom.node Dom.tagName Dom.attributes Dom.style]).

Lemma preview_iframe_src n href app params :
  Dom.getAttribute "src" (preview_iframe n href app params)
  = Some ("../" +:+ app +:+ "/show.html?" +:+ params).
Proof.
  unfold Dom.getAttribute. set_attributes.
  rewrite !(lookup_insert_ne _ _ "src") by discriminate.
  apply lookup_insert_eq.
Qed.

Lemma has_id_true id e :
  Dom.has_id id e = true ↔ Dom.getAttribute "id" e = Some id.
Proof. unfold Dom.has_id, Dom.getAttribute. apply bool_decide_eq_true. Qed.

Lemma preview_iframe_id_attribute n href app params :
  Dom.getAttribute "id" (preview_iframe n href app params) = Some "ifrm0".
Proof.
  unfold Dom.getAttribute. set_attributes.
  rewrite lookup_insert_ne by discriminate.
  apply lookup_insert_eq.
Qed.

Lemma preview_iframe_id n href app params :
  Dom.has_id "ifrm0" (preview_iframe n href app params) = true.
Proof. apply has_id_true, preview_iframe_id_attribute. Qed.

Lemma preview_iframe_node n href app params :
  Dom.node (preview_iframe n href app params) = n
  ∧ Dom.tagName (preview_iframe n href app params) = "iframe".
Proof. by set_attributes. Qed.

(** A click whose app name passes the test puts one new iframe in the place
    of whatever the container held. *)
Lemma view_link_click_accepted href s :
  let params := Js.substr_after_indexOf "?" href in
  let app := parameterStringToHash params !! "privlyApp" in
  Js.test_letters app = true →
  privly_iframe (view_link_click href s)
    = [preview_iframe (created_nodes s) href (Js.to_string app) params]
  ∧ created_nodes (view_link_click href s) = S (created_nodes s).
Proof.
  intros params app Happ. unfold view_link_click.
  fold params. fold app. rewrite Happ. done.
Qed.

(** A click whose app name fails the test leaves the preview as it is. *)
Lemma view_link_click_refused href s :
  let params := Js.substr_after_indexOf "?" href in
  let app := parameterStringToHash params !! "privlyApp" in
  Js.test_letters app = false →
  preview (view_link_click href s) = preview s.
Proof.
  intros params app Happ. unfold view_link_click.
  fold params. fold app. rewrite Happ. done.
Qed.

Lemma view_link_click_previews href s :
  length (previews s) ≤ 1 → length (previews (view_link_click href s)) ≤ 1.
Proof.
  intros Hs.
  destruct (Js.test_letters
              (parameterStringToHash (Js.substr_after_indexOf "?" href) !! "privlyApp"))
    eqn:Happ.
  - unfold previews.
    destruct (view_link_click_accepted href s Happ) as [-> _].
    rewrite filter_cons. case_decide; simpl; lia.
  - pose proof (view_link_click_refused href s Happ) as [= Hp _ _ _].
    unfold previews. by rewrite Hp.
Qed.

Lemma set_style_height_attributes parsed e :
  Dom.attributes (Dom.set_style_height parsed e) = Dom.attributes e.
Proof. by destruct parsed. Qed.

Lemma update_by_id_previews f es :
  (∀ e, Dom.attributes (f e) = Dom.attributes e) →
  length (filter (fun e => Dom.has_id "ifrm0" e = true) (Dom.update_by_id "ifrm0" f es))
  = length (filter (fun e => Dom.has_id "ifrm0" e = true) es).
Proof.
  intros Hf. induction es as [|e es IH]; [done|].
  simpl. destruct (Dom.has_id "ifrm0" e) eqn:He.
  - rewrite !filter_cons.
    assert (Dom.has_id "ifrm0" (f e) = true) as He'.
    { unfold Dom.has_id in *. by rewrite Hf. }
    rewrite decide_True by done. rewrite decide_True by done. reflexivity.
  - rewrite !filter_cons. rewrite !decide_False by congruence. exact IH.
Qed.

Lemma getElementById_update id f es el :
  (∀ e, Dom.attributes (f e) = Dom.attributes e) →
  Dom.getElementById id es = Some el →
  Dom.getElementById id (Dom.update_by_id id f es) = Some (f el).
Proof.
  intros Hf. induction es as [|e es IH]; [done|].
  simpl. destruct (Dom.has_id id e) eqn:He.
  - intros [= ->]. simpl.
    assert (Dom.has_id id (f el) = true) as ->; [|done].
    unfold Dom.has_id in *. by rewrite Hf.
  - intros Hel. simpl. rewrite He. by apply IH.
Qed.

Lemma update_by_id_same id f es :
  (∀ e, f e = e) → Dom.update_by_id id f es = es.
Proof.
  intros Hf. induction es as [|e es IH]; [reflexivity|].
  simpl. destruct (Dom.has_id id e); [by rewrite Hf|by rewrite IH].
Qed.

Lemma set_privly_iframe_same s : set_privly_iframe (privly_iframe s) s = s.
Proof. by destruct s. Qed.

(** A text that the browser does not read as a height leaves the page as
    it is. *)
Lemma resize_dropped e d s :
  origin e = location_origin →
  data e = DataString d →
  is_Some (Dom.getElementById "ifrm0" (privly_iframe s)) →
  height_value (posted_height d) = None →
  resizeIframePostedMessage e s = Returned s.
Proof.
  intros Ho Hd [el Hel] Hnone. unfold resizeIframePostedMessage.
  rewrite decide_True by exact Ho. rewrite Hel, Hd, Hnone.
  rewrite update_by_id_same by reflexivity.
  by rewrite set_privly_iframe_same.
Qed.

Lemma invoke_preview c r s : preview (state_of (invoke c r s)) = preview s.
Proof.
  destruct c; unfold invoke; try reflexivity.
  - unfold state_of, pendingLogin. by destruct (decide _).
  - destruct r as [r|]; [|reflexivity]. apply postCompleted_frame.
Qed.

Lemma clicks_previews n href s :
  length (previews s) ≤ 1 →
  length (previews (Nat.iter n (view_link_click href) s)) ≤ 1.
Proof.
  intros Hs. induction n as [|n IH]; [exact Hs|].
  simpl. by apply view_link_click_previews.
Qed.

Lemma deliver_previews ev s :
  length (previews s) ≤ 1 → length (previews (state_of (deliver ev s))) ≤ 1.
Proof.
  intros Hs.
  assert (∀ s', preview s' = preview s → length (previews s') ≤ 1) as Hsame.
  { intros s' [= Hp _ _ _]. unfold previews. by rewrite Hp. }
  destruct ev as [| | | |r| |href|e|]; unfold deliver.
  - destruct (loaded s); [exact Hs|]. apply Hsame. by rewrite invoke_preview.
  - destruct (session_callbacks s) as [[[c1 c2] c3]|]; [|exact Hs].
    apply Hsame. by rewrite invoke_preview.
  - destruct (session_callbacks s) as [[[c1 c2] c3]|]; [|exact Hs].
    apply Hsame. by rewrite invoke_preview.
  - destruct (session_callbacks s) as [[[c1 c2] c3]|]; [|exact Hs].
    apply Hsame. by rewrite invoke_preview.
  - destruct (fetch_callbacks s) as [|c cs]; [exact Hs|].
    apply Hsame. by rewrite invoke_preview.
  - by apply Hsame.
  - by apply clicks_previews.
  - destruct (window_message s); [|exact Hs].
    unfold resizeIframePostedMessage.
    destruct (decide _); [|exact Hs].
    destruct (Dom.getElementById _ _); [|exact Hs].
    destruct (data e); [|exact Hs].
    unfold previews, state_of. cbn [privly_iframe set_privly_iframe].
    rewrite update_by_id_previews; [exact Hs|].
    intros x. apply set_style_height_attributes.
  - destruct (message_link_button_click s); [|exact Hs].
    apply Hsame. by destruct (postUrl_frame s) as (_ & _ & -> & _).
Qed.

End Preview.

(** ** The properties of the specification *)

Section Claims.

Context `{Collaborators}.

(** C2, as amended: a message from another origin changes nothing at all.
    A message from the page's own origin whose data is a comma-separated
    string assigns the second field followed by "px" to the height of the
    preview iframe's style: when the browser reads that text as a value of
    height, the height becomes that value as the browser serialises it and
    nothing else changes; when it does not, the assignment is dropped and
    the page stays as it is. *)
Theorem resize_sets_height (e : MessageEvent) (s : Page) :
  (origin e ≠ location_origin → resizeIframePostedMessage e s = Returned s)
  ∧ (∀ el d f0 f1 fs,
       origin e = location_origin →
       Dom.getElementById "ifrm0" (privly_iframe s) = Some el →
       data e = DataString d →
       Js.split "," d = f0 :: f1 :: fs →
       (∀ value,
          height_value (f1 +:+ "px") = Some value →
          let el' := Dom.mkElement (Dom.node el) (Dom.tagName el) (Dom.attributes el)
                       (<["height":=value]> (Dom.style el)) in
          let s' := set_privly_iframe
                      (Dom.update_by_id "ifrm0" (fun _ => el') (privly_iframe s)) s in
          resizeIframePostedMessage e s = Returned s'
          ∧ Dom.getElementById "ifrm0" (privly_iframe s') = Some el'
          ∧ Dom.style el' !! "height" = Some value)
       ∧ (height_value (f1 +:+ "px") = None →
          resizeIframePostedMessage e s = Returned s)).
Proof.
  split.
  - intros Ho. unfold resizeIframePostedMessage. by rewrite decide_False.
  - intros el d f0 f1 fs Ho Hel Hd Hsplit.
    assert (posted_height d = f1 +:+ "px") as Hposted.
    { unfold posted_height. by rewrite Hsplit. }
    split.
    + intros value Hvalue el' s'.
      assert (Dom.update_by_id "ifrm0" (Dom.set_style_height (Some value)) (privly_iframe s)
              = Dom.update_by_id "ifrm0" (fun _ => el') (privly_iframe s)) as Hupd.
      { clear -Hel. revert Hel. induction (privly_iframe s) as [|x xs IH]; [done|].
        simpl. destruct (Dom.has_id "ifrm0" x).
        - by intros [= ->].
        - intros Hel. by rewrite IH. }
      split; [|split].
      * unfold resizeIframePostedMessage. rewrite decide_True by done.
        rewrite Hel, Hd, Hposted, Hvalue. by rewrite Hupd.
      * unfold s'. cbn [privly_iframe set_privly_iframe]. rewrite <- Hupd.
        apply (getElementById_update "ifrm0" (Dom.set_style_height (Some value)));
          [intros x; apply set_style_height_attributes|exact Hel].
      * apply lookup_insert_eq.
    + intros Hnone. apply (resize_dropped e d s Ho Hd (mk_is_Some _ _ Hel)).
      by rewrite Hposted.
Qed.

(** C4: when the decoded privlyApp passes the test, the container holds the
    one iframe whose src is "../" + app + "/show.html?" + params, where
    params is what follows the first "?" of the link. *)
Theorem view_link_src (href : string) (s : Page) (a : string) :
  let params := Js.substr_after_indexOf "?" href in
  parameterStringToHash params !! "privlyApp" = Some a →
  Js.letters_only a = true →
  (∃ e, privly_iframe (view_link_click href s) = [e]
        ∧ Dom.getAttribute "src" e = Some ("../" +:+ a +:+ "/show.html?" +:+ params))
  ∧ (∀ pre post, href = pre +:+ "?" +:+ post → Js.indexOf "?" pre = None → params = post).
Proof.
  intros params Ha Hletters. split.
  - assert (Js.test_letters (parameterStringToHash params !! "privlyApp") = true) as Ht.
    { by rewrite Ha. }
    destruct (view_link_click_accepted href s Ht) as [Hp _].
    eexists. split; [exact Hp|].
    rewrite preview_iframe_src. fold params. by rewrite Ha.
  - intros pre post -> Hpre. by apply JsFacts.substr_after_first.
Qed.

(** C8: every event leaves at most one preview iframe in the container, and
    a preview that is built replaces whatever the container held by one new
    iframe with the id "ifrm0". *)
Theorem one_preview_iframe (s : Page) :
  (∀ evs, length (previews s) ≤ 1 → length (previews (run evs s)) ≤ 1)
  ∧ (∀ href,
       Js.test_letters
         (parameterStringToHash (Js.substr_after_indexOf "?" href) !! "privlyApp") = true →
       ∃ e, privly_iframe (view_link_click href s) = [e]
            ∧ previews (view_link_click href s) = [e]
            ∧ Dom.getAttribute "id" e = Some "ifrm0"
            ∧ Dom.tagName e = "iframe"
            ∧ Dom.node e = created_nodes s).
Proof.
  split.
  - intros evs. revert s. induction evs as [|ev evs IH]; intros s Hs; [exact Hs|].
    simpl. apply IH. by apply deliver_previews.
  - intros href Happ.
    destruct (view_link_click_accepted href s Happ) as [Hp _].
    pose proof (preview_iframe_id (created_nodes s) href
                  (Js.to_string (parameterStringToHash (Js.substr_after_indexOf "?" href)
                                   !! "privlyApp"))
                  (Js.substr_after_indexOf "?" href)) as Hid.
    eexists. split; [exact Hp|]. split; [|split; [|split]].
    + unfold previews. rewrite Hp. rewrite filter_cons.
      rewrite decide_True by exact Hid. reflexivity.
    + apply preview_iframe_id_attribute.
    + exact (proj2 (preview_iframe_node _ _ _ _)).
    + exact (proj1 (preview_iframe_node _ _ _ _)).
Qed.

(** C9: without an element "ifrm0", a message from the page's own origin
    makes resizeIframePostedMessage throw on the null element, and so does
    postUrl; either returns only when the preview iframe exists. *)
Theorem no_preview_null_dereference (e : MessageEvent) (s : Page) :
  (Dom.getElementById "ifrm0" (privly_iframe s) = None →
     (origin e = location_origin → resizeIframePostedMessage e s = Thrown s)
     ∧ postUrl s = Thrown s)
  ∧ (origin e = location_origin → returned (resizeIframePostedMessage e s) = true →
     is_Some (Dom.getElementById "ifrm0" (privly_iframe s)))
  ∧ (returned (postUrl s) = true →
     is_Some (Dom.getElementById "ifrm0" (privly_iframe s))).
Proof.
  unfold resizeIframePostedMessage, postUrl. split; [intros Hnone; split|split].
  - intros Ho. rewrite decide_True by done. by rewrite Hnone.
  - by rewrite Hnone.
  - intros Ho. rewrite decide_True by done.
    by destruct (Dom.getElementById _ _).
  - by destruct (Dom.getElementById _ _).
Qed.

(** C10: every call of postCompleted that returns attaches one more click
    handler to the body, so after k responses the body carries k more
    handlers, and one click on a View link runs the embedding once per
    handler: with k handlers and an app name that passes the test, one click
    builds k iframes. *)
Theorem click_handlers_accumulate (s : Page) :
  (∀ r, has_data_urls r = true →
        ∃ s', postCompleted r s = Returned s'
              ∧ view_link_handlers s' = S (view_link_handlers s))
  ∧ (∀ rs, forallb has_data_urls rs = true →
           ∃ s', postCompleted_each rs s = Returned s'
                 ∧ view_link_handlers s' = view_link_handlers s + length rs)
  ∧ (∀ href, deliver (ClickViewLink href) s
             = Returned (Nat.iter (view_link_handlers s) (view_link_click href) s))
  ∧ (∀ href,
       Js.test_letters
         (parameterStringToHash (Js.substr_after_indexOf "?" href) !! "privlyApp") = true →
       created_nodes (state_of (deliver (ClickViewLink href) s))
       = created_nodes s + view_link_handlers s).
Proof.
  assert (∀ r s, has_data_urls r = true →
                 ∃ s', postCompleted r s = Returned s'
                       ∧ view_link_handlers s' = S (view_link_handlers s)) as Hone.
  { clear s. intros r s Hr. unfold postCompleted, has_data_urls in *.
    destruct (json r) as [posts|]; [|by eexists].
    assert (∃ s1, add_posts posts s = Returned s1) as [s1 Hs1].
    { clear -Hr. revert s. induction posts as [|post rest IH]; intros s; [by eexists|].
      simpl in *. apply andb_true_iff in Hr as [Hpost Hrest].
      apply bool_decide_eq_true in Hpost as [u ->]. by apply IH. }
    pose proof (add_posts_frame posts s) as (_ & _ & Hh).
    rewrite Hs1 in *. simpl in Hh. eexists. split; [done|]. simpl. by rewrite Hh. }
  split; [intros r Hr; by apply Hone|]. split; [|split].
  - intros rs. revert s. induction rs as [|r rs IH]; intros s Hrs.
    { exists s. simpl. split; [done|lia]. }
    simpl in *. apply andb_true_iff in Hrs as [Hr Hrs].
    destruct (Hone r s Hr) as (s1 & -> & Hs1).
    destruct (IH s1 Hrs) as (s' & -> & Hs').
    exists s'. split; [done|]. lia.
  - done.
  - intros href Happ. simpl.
    induction (view_link_handlers s) as [|n IH]; simpl; [lia|].
    destruct (view_link_click_accepted href (Nat.iter n (view_link_click href) s) Happ)
      as [_ ->]. lia.
Qed.

(** C5, as amended: the manage link of a record is its data URL with the
    first "format=json" replaced by "format=html" and then the first ".json"
    replaced by ".html".  So a data URL whose first "format=json" is at the
    end of [a], and which has no ".json" once that is rewritten, becomes the
    same URL with "format=html", all else untouched; and a data URL without
    "format=json" whose first ".json" is at the end of [a] becomes the same
    URL with ".html". *)
Theorem manageURL_rewrite (post : Post) (u : string) (s : Page) :
  parameterStringToHash (privly_URL post) !! "privlyDataURL" = Some u →
  (∃ s', postCompleted (mkResponse (JArray [post])) s = Returned s'
         ∧ posts_rows s' = posts_rows s ++ [post_row post (manageURL u)])
  ∧ manageURL u = Js.replace ".json" ".html" (Js.replace "format=json" "format=html" u)
  ∧ (∀ a b, u = a +:+ "format=json" +:+ b →
            Js.indexOf "format=json" u = Some (String.length a) →
            Js.indexOf ".json" (a +:+ "format=html" +:+ b) = None →
            manageURL u = a +:+ "format=html" +:+ b)
  ∧ (∀ a b, u = a +:+ ".json" +:+ b →
            Js.indexOf "format=json" u = None →
            Js.indexOf ".json" u = Some (String.length a) →
            manageURL u = a +:+ ".html" +:+ b).
Proof.
  intros Hu. split; [|split; [done|split]].
  - unfold postCompleted. simpl. rewrite Hu. by eexists.
  - intros a b -> Hfirst Hnone. unfold manageURL.
    rewrite (JsFacts.replace_indexOf _ _ _ _ Hfirst).
    rewrite JsFacts.keep_app, JsFacts.skip_add, JsFacts.skip_app.
    rewrite (JsFacts.skip_app "format=json" b).
    by apply JsFacts.replace_absent.
  - intros a b -> Hnone Hfirst. unfold manageURL.
    rewrite (JsFacts.replace_absent _ _ _ Hnone).
    rewrite (JsFacts.replace_indexOf _ _ _ _ Hfirst).
    rewrite JsFacts.keep_app, JsFacts.skip_add, JsFacts.skip_app.
    by rewrite (JsFacts.skip_app ".json" b).
Qed.

Lemma failure_is_final evs : foldl phase_after FailureToLogin evs = FailureToLogin.
Proof. induction evs as [|ev evs IH]; [done|]. by destruct ev. Qed.

(** C3: the page never shows the text of createError.  pendingPost gives
    postCompleted alone to the request for the post list, and nothing else
    calls createError, so whatever is delivered to a page whose message area
    did not hold that text to begin with, the area does not hold it. *)
Theorem createError_never_runs (s0 : Page) (evs : list Event) :
  fresh s0 = true →
  messages s0 ≠ Text fetch_error_text →
  messages (run evs s0) ≠ Text fetch_error_text.
Proof.
  intros Hfresh Hm0.
  pose proof (run_phase s0 Unloaded evs s0 (fresh_unloaded s0 Hfresh)) as Hin.
  destruct (foldl phase_after Unloaded evs); simpl in Hin.
  - destruct Hin as [[= _ _ _ ->] _]. done.
  - destruct Hin as [[= _ _ _ ->] _]. done.
  - destruct Hin as [[= _ _ _ ->] _]. done.
  - destruct Hin as (_ & _ & -> & _). done.
Qed.

(** C6: whichever of the two failure callbacks answers the session check,
    loginFailure runs and renders into the message area the sign-in prompt,
    the markup that says the sign-in failed and links to the sign-in page of
    the content server, contentServerDomain + "/users/sign_in"; from then on
    the prompt stays and no row is added to the post table. *)
Theorem session_failure_prompts_sign_in (s0 : Page) (evs1 : list Event) (f : Event) :
  fresh s0 = true →
  f = LoginRequired ∨ f = SessionError →
  is_Some (session_callbacks (run evs1 s0)) →
  let s1 := run evs1 s0 in
  let prompt :=
    Html ("We were unable to sign you into your content server please <a href='"
          +:+ contentServerDomain
          +:+ "/users/sign_in' target='_blank'>sign in</a> to <a href=''>continue</a>") in
  deliver f s1 = Returned (loginFailure (set_session_callbacks None s1))
  ∧ messages (loginFailure (set_session_callbacks None s1)) = prompt
  ∧ ∀ evs2, messages (run evs2 (state_of (deliver f s1))) = prompt
            ∧ posts_rows (run evs2 (state_of (deliver f s1))) = posts_rows s0.
Proof.
  intros Hfresh Hf Hpending s1 prompt.
  assert (Html sign_in_prompt = prompt) as Hprompt by reflexivity.
  pose proof (run_phase s0 Unloaded evs1 s0 (fresh_unloaded s0 Hfresh)) as Hin.
  fold s1 in Hin, Hpending.
  destruct (foldl phase_after Unloaded evs1) eqn:Hph;
    try (destruct Hin as [[= _ Hs _ _] _]; rewrite Hs in Hpending; by destruct Hpending).
  2:{ destruct Hin as (_ & Hs & _). rewrite Hs in Hpending. by destruct Hpending. }
  assert (deliver f s1 = Returned (loginFailure (set_session_callbacks None s1))) as Hd.
  { destruct Hin as [[= _ Hs _ _] _]. destruct Hf as [-> | ->]; simpl; by rewrite Hs. }
  split; [done|]. split; [exact Hprompt|]. intros evs2.
  pose proof (phase_step s0 PendingLoginCheck f s1 Hin) as Hfail.
  replace (phase_after PendingLoginCheck f) with FailureToLogin in Hfail
    by (by destruct Hf as [-> | ->]).
  pose proof (run_phase s0 FailureToLogin evs2 _ Hfail) as Hrun.
  rewrite failure_is_final in Hrun.
  destruct Hrun as [[= _ _ _ Hm] Hr]. rewrite <- Hprompt. done.
Qed.

(** C7: when the request for the post list is answered with an empty array,
    postCompleted returns, the post table has the rows it had, and the
    message area holds the empty text that pendingPost put there. *)
Theorem empty_post_list (s0 : Page) (evs : list Event) :
  fresh s0 = true →
  fetch_callbacks (run evs s0) ≠ [] →
  let s := run evs s0 in
  ∃ cs s', fetch_callbacks s = PostCompleted :: cs
           ∧ deliver (PostsResponse (mkResponse (JArray []))) s = Returned s'
           ∧ s' = state_of (postCompleted (mkResponse (JArray [])) (set_fetch_callbacks cs s))
           ∧ posts_rows s' = posts_rows s
           ∧ messages s' = Text EmptyString.
Proof.
  intros Hfresh Hpending s.
  pose proof (run_phase s0 Unloaded evs s0 (fresh_unloaded s0 Hfresh)) as Hin.
  fold s in Hin, Hpending.
  destruct (foldl phase_after Unloaded evs);
    try (destruct Hin as [[= _ _ Hf _] _]; congruence).
  destruct Hin as (_ & _ & Hm & Hf).
  destruct (fetch_callbacks s) as [|c cs] eqn:Hcs; [done|].
  apply Forall_cons in Hf as [<- _].
  exists cs. eexists. split; [done|]. split.
  { simpl. rewrite Hcs. simpl. reflexivity. }
  done.
Qed.

(** C1: the gate of line 135 refuses every string that is not made of
    letters, but a link without privlyApp passes it, because test turns the
    undefined value into the text "undefined": the click builds an iframe for
    "../undefined/show.html" and puts it in the container. *)
Theorem missing_privlyApp_builds_iframe (href : string) (s : Page) :
  let params := Js.substr_after_indexOf "?" href in
  parameterStringToHash params !! "privlyApp" = None →
  created_nodes (view_link_click href s) = S (created_nodes s)
  ∧ ∃ e, privly_iframe (view_link_click href s) = [e]
         ∧ Dom.tagName e = "iframe"
         ∧ Dom.getAttribute "src" e = Some ("../undefined/show.html?" +:+ params).
Proof.
  intros params Hmissing.
  assert (Js.test_letters (parameterStringToHash params !! "privlyApp") = true) as Ht.
  { rewrite Hmissing. reflexivity. }
  destruct (view_link_click_accepted href s Ht) as [Hp Hn].
  split; [exact Hn|]. eexists. split; [exact Hp|]. split.
  - exact (proj2 (preview_iframe_node _ _ _ _)).
  - rewrite preview_iframe_src. fold params. rewrite Hmissing. reflexivity.
Qed.

End Claims.

(** ** The properties at the sample pages *)

Example height_value_readings :
  Css.height_value "240px" = Some "240px"
  ∧ Css.height_value "1e3px" = Some "1000px"
  ∧ Css.height_value " 05.50px" = Some "5.5px"
  ∧ Css.height_value "-0px" = Some "0px"
  ∧ Css.height_value "-5px" = None
  ∧ Css.height_value "px" = None
  ∧ Css.height_value "undefinedpx" = None
  ∧ Css.height_value "5.px" = None.
Proof. by vm_compute. Qed.

Example hosted_page_hides_button :
  message_link_button_style (@run hosted [DOMContentLoaded] blank) = Some "display:none"
  ∧ message_link_button_click (@run hosted [DOMContentLoaded] blank) = false
  ∧ message_link_button_click (@run extension [DOMContentLoaded] blank) = true.
Proof. by vm_compute. Qed.

Lemma missing_privlyApp_builds_iframe_witness :
  let href := "https://priv.ly/posts/1?privlyInject1=true" in
  privly_iframe blank = []
  ∧ created_nodes (@view_link_click extension href blank) = 1
  ∧ ∃ e, privly_iframe (@view_link_click extension href blank) = [e]
         ∧ Dom.tagName e = "iframe"
         ∧ Dom.getAttribute "src" e = Some "../undefined/show.html?privlyInject1=true".
Proof.
  intros href. split; [reflexivity|].
  apply (@missing_privlyApp_builds_iframe extension href blank). by vm_compute.
Defined.

Lemma resize_sets_height_witness :
  @resizeIframePostedMessage extension foreign_message previewing = Returned previewing
  ∧ @resizeIframePostedMessage extension negative_message previewing = Returned previewing
  ∧ ∃ el s', Dom.getElementById "ifrm0" (privly_iframe previewing) = Some el
             ∧ @resizeIframePostedMessage extension own_message previewing = Returned s'
             ∧ (∃ el', Dom.getElementById "ifrm0" (privly_iframe s') = Some el'
                       ∧ Dom.attributes el' = Dom.attributes el
                       ∧ Dom.style el' !! "height" = Some "240px").
Proof.
  assert (∃ el, Dom.getElementById "ifrm0" (privly_iframe previewing) = Some el)
    as [el Hel] by (vm_compute; eexists; reflexivity).
  split; [|split].
  - apply (proj1 (@resize_sets_height extension foreign_message previewing)). done.
  - apply (proj2 (@resize_sets_height extension negative_message previewing)
             el "x,-5" "x" "-5" []); reflexivity || exact Hel.
  - exists el. eexists. split; [exact Hel|].
    destruct (proj1 (proj2 (@resize_sets_height extension own_message previewing)
                       el "ignored,240" "ignored" "240" [] eq_refl Hel eq_refl eq_refl)
                "240px" eq_refl) as (Hr & Hg & Hh).
    split; [exact Hr|]. eexists. split; [exact Hg|]. split; [reflexivity|exact Hh].
Defined.

(** C2, as stated, fails: for the message "x,-5" from the page's own origin
    the text assigned is "-5px", no value of height; the height of the
    preview iframe's style is not "-5px" afterwards, it is the 32px that it
    was. *)
Lemma resize_drops_negative_height :
  origin negative_message = @location_origin extension
  ∧ Js.split "," "x,-5" = ["x"; "-5"]
  ∧ ∃ s' el', @resizeIframePostedMessage extension negative_message previewing = Returned s'
              ∧ Dom.getElementById "ifrm0" (privly_iframe s') = Some el'
              ∧ Dom.style el' !! "height" = Some "32px"
              ∧ Dom.style el' !! "height" ≠ Some ("-5" +:+ "px").
Proof.
  split; [reflexivity|]. split; [reflexivity|].
  vm_compute. eexists. eexists. split; [reflexivity|]. split; [reflexivity|].
  split; [reflexivity|discriminate].
Qed.

Lemma createError_never_runs_witness :
  messages (@run extension
              [DOMContentLoaded; CanPost; PostsResponse (mkResponse JObject)] blank)
  ≠ Text fetch_error_text.
Proof. apply (@createError_never_runs extension blank); done. Defined.

Lemma view_link_src_witness :
  ∃ e, privly_iframe (@view_link_click extension sample_link blank) = [e]
       ∧ Dom.getAttribute "src" e
         = Some ("../PlainPost/show.html?" +:+ Js.substr_after_indexOf "?" sample_link).
Proof.
  apply (proj1 (@view_link_src extension sample_link blank "PlainPost"
                  ltac:(by vm_compute) ltac:(done))).
Defined.

(** C5, as stated, fails: a data URL with "format=json" and another
    parameter that holds ".json" has that other parameter rewritten too. *)
Lemma manageURL_alters_other_parameter :
  let u := "https://priv.ly/posts/3?file=a.json&format=json" in
  manageURL u = "https://priv.ly/posts/3?file=a.html&format=html"
  ∧ manageURL u ≠ "https://priv.ly/posts/3?file=a.json&format=html".
Proof. split; [reflexivity|discriminate]. Qed.

Lemma manageURL_rewrite_witness :
  (∃ s', @postCompleted extension (mkResponse (JArray [sample_post])) blank = Returned s'
         ∧ posts_rows s'
           = [post_row sample_post (manageURL "https://priv.ly/posts/1.json?x=1")])
  ∧ manageURL "https://priv.ly/posts/1.json?x=1" = "https://priv.ly/posts/1.html?x=1"
  ∧ manageURL "https://priv.ly/posts/2?format=json&x=1"
    = "https://priv.ly/posts/2?format=html&x=1".
Proof.
  pose proof (@manageURL_rewrite extension sample_post "https://priv.ly/posts/1.json?x=1"
                blank ltac:(by vm_compute)) as (Hrow & _ & _ & Hjson).
  pose proof (@manageURL_rewrite extension format_post
                "https://priv.ly/posts/2?format=json&x=1"
                blank ltac:(by vm_compute)) as (_ & _ & Hformat & _).
  split; [exact Hrow|]. split.
  - apply (Hjson "https://priv.ly/posts/1" "?x=1"); done.
  - apply (Hformat "https://priv.ly/posts/2?" "&x=1"); done.
Defined.

Lemma session_failure_prompts_sign_in_witness :
  let s1 := @run extension [DOMContentLoaded] blank in
  let prompt :=
    Html "We were unable to sign you into your content server please <a href='https://priv.ly/users/sign_in' target='_blank'>sign in</a> to <a href=''>continue</a>" in
  @deliver extension SessionError s1
  = Returned (@loginFailure extension (set_session_callbacks None s1))
  ∧ @deliver extension LoginRequired s1
    = Returned (@loginFailure extension (set_session_callbacks None s1))
  ∧ messages (state_of (@deliver extension SessionError s1)) = prompt
  ∧ messages (state_of (@deliver extension LoginRequired s1)) = prompt
  ∧ messages (@run extension [CanPost; PostsResponse (mkResponse (JArray [sample_post]))]
                (state_of (@deliver extension SessionError s1))) = prompt
  ∧ posts_rows (@run extension [CanPost; PostsResponse (mkResponse (JArray [sample_post]))]
                  (state_of (@deliver extension SessionError s1))) = [].
Proof.
  intros s1 prompt.
  destruct (@session_failure_prompts_sign_in extension blank [DOMContentLoaded] SessionError
              eq_refl (or_intror eq_refl) ltac:(by eexists)) as (He & _ & Hafter).
  destruct (@session_failure_prompts_sign_in extension blank [DOMContentLoaded] LoginRequired
              eq_refl (or_introl eq_refl) ltac:(by eexists)) as (Hl & _ & Hafter').
  split; [exact He|]. split; [exact Hl|].
  split; [exact (proj1 (Hafter []))|]. split; [exact (proj1 (Hafter' []))|].
  exact (Hafter [CanPost; PostsResponse (mkResponse (JArray [sample_post]))]).
Defined.

Lemma empty_post_list_witness :
  let s := @run extension [DOMContentLoaded; CanPost] blank in
  ∃ cs s', fetch_callbacks s = PostCompleted :: cs
           ∧ @deliver extension (PostsResponse (mkResponse (JArray []))) s = Returned s'
           ∧ s' = state_of (@postCompleted extension (mkResponse (JArray []))
                              (set_fetch_callbacks cs s))
           ∧ posts_rows s' = posts_rows s
           ∧ messages s' = Text EmptyString.
Proof.
  apply (@empty_post_list extension blank [DOMContentLoaded; CanPost]); done.
Defined.

Lemma one_preview_iframe_witness :
  length (previews (@run extension [ClickViewLink sample_link; ClickViewLink sample_link]
                      listed)) ≤ 1
  ∧ ∃ e, privly_iframe (@view_link_click extension sample_link previewing) = [e]
         ∧ previews (@view_link_click extension sample_link previewing) = [e]
         ∧ Dom.getAttribute "id" e = Some "ifrm0"
         ∧ Dom.tagName e = "iframe"
         ∧ Dom.node e = created_nodes previewing.
Proof.
  split.
  - apply (proj1 (@one_preview_iframe extension listed)). vm_compute. lia.
  - apply (proj2 (@one_preview_iframe extension previewing)). by vm_compute.
Defined.

Lemma no_preview_null_dereference_witness :
  @resizeIframePostedMessage extension own_message listed = Thrown listed
  ∧ postUrl listed = Thrown listed
  ∧ is_Some (Dom.getElementById "ifrm0" (privly_iframe previewing)).
Proof.
  destruct (@no_preview_null_dereference extension own_message listed) as (Hnull & _ & _).
  destruct (Hnull ltac:(by vm_compute)) as [Hresize HpostUrl].
  split; [by apply Hresize|]. split; [exact HpostUrl|].
  apply (proj2 (proj2 (@no_preview_null_dereference extension own_message previewing))).
  by vm_compute.
Defined.

Lemma click_handlers_accumulate_witness :
  (∃ s', @postCompleted_each extension
           [mkResponse (JArray [sample_post]); mkResponse (JArray [format_post])] listed
         = Returned s'
         ∧ view_link_handlers s' = view_link_handlers listed + 2)
  ∧ view_link_handlers relisted = 3
  ∧ created_nodes (state_of (@deliver extension (ClickViewLink sample_link) relisted))
    = created_nodes relisted + 3.
Proof.
  destruct (@click_handlers_accumulate extension listed) as (_ & Heach & _ & _).
  destruct (@click_handlers_accumulate extension relisted) as (_ & _ & _ & Hclick).
  split; [|split].
  - apply (Heach [mkResponse (JArray [sample_post]); mkResponse (JArray [format_post])]).
    by vm_compute.
  - by vm_compute.
  - assert (view_link_handlers relisted = 3) as Hthree by (by vm_compute).
    rewrite (Hclick sample_link ltac:(by vm_compute)). by rewrite Hthree.
Defined.

(** C10, as stated, fails: a call of postCompleted with a record whose link
    carries no data URL throws at line 113 and attaches no handler. *)
Lemma postCompleted_throw_attaches_no_handler :
  ∃ s', @postCompleted extension (mkResponse (JArray [bare_post])) listed = Thrown s'
        ∧ view_link_handlers s' = view_link_handlers listed
        ∧ view_link_handlers s' ≠ S (view_link_handlers listed).
Proof.
  exists listed. split; [by vm_compute|]. split; [reflexivity|].
  vm_compute. discriminate.
Qed.

(** * Further properties of new.js *)

(** ** The calls that the handlers make *)

Section Calls.

Context `{Collaborators}.

Lemma relayed_app s l :
  omap relayed_url (calls s ++ l) = relayed s ++ omap relayed_url l.
Proof. unfold relayed. apply omap_app. Qed.

Lemma requests_app s l :
  filter (fun c => is_request c = true) (calls s ++ l)
  = requests s ++ filter (fun c => is_request c = true) l.
Proof. unfold requests. apply filter_app. Qed.

Lemma replicate_DataTable n :
  omap relayed_url (replicate n DataTable) = []
  ∧ filter (fun c => is_request c = true) (replicate n DataTable) = [].
Proof. induction n as [|n [IH1 IH2]]; [done|]. split; [exact IH1|exact IH2]. Qed.

Lemma add_posts_calls posts s :
  ∃ n, calls (state_of (add_posts posts s)) = calls s ++ replicate n DataTable.
Proof.
  revert s. induction posts as [|post rest IH]; intros s.
  - exists 0. simpl. by rewrite app_nil_r.
  - simpl. destruct (parameterStringToHash _ !! _) as [u|].
    + destruct (IH (fnAddData (post_row post (manageURL u)) s)) as [n Hn].
      exists (S n). rewrite Hn. cbn [calls fnAddData set_posts_rows call set_calls].
      rewrite <- app_assoc. reflexivity.
    + exists 0. simpl. by rewrite app_nil_r.
Qed.

Lemma postCompleted_calls r s :
  ∃ n, calls (state_of (postCompleted r s)) = calls s ++ replicate n DataTable.
Proof.
  unfold postCompleted. destruct (json r) as [posts|].
  - destruct (add_posts_calls posts s) as [n Hn]. exists n.
    destruct (add_posts posts s); exact Hn.
  - exists 0. simpl. by rewrite app_nil_r.
Qed.

Lemma pendingLogin_calls s :
  calls (pendingLogin s)
  = calls s ++ [InitializeNavigation; SetInitialContentHook; SetMessageSecretHook;
                FirePrivlyMessageSecretEvent; AjaxStart; AjaxStop;
                InitPrivlyService true PendingPost LoginFailure LoginFailure].
Proof.
  unfold pendingLogin, messaging_initialize.
  destruct (decide _); cbn [calls call set_calls set_session_callbacks
    set_window_message set_message_link_button_style set_message_link_button_click];
    rewrite <- !app_assoc; reflexivity.
Qed.

Lemma pendingPost_calls s :
  calls (pendingPost s)
  = calls s ++ [ShowLoggedInNav; DataTable;
                SameOriginGetRequest (contentServerDomain +:+ "/posts") PostCompleted].
Proof.
  unfold pendingPost.
  cbn [calls call set_calls set_messages set_fetch_callbacks].
  rewrite <- !app_assoc. reflexivity.
Qed.

(** A member of [callbacks] relays no link, and makes the requests of
    [issued_by]. *)
Lemma invoke_calls c r s :
  ∃ l, calls (state_of (invoke c r s)) = calls s ++ l
       ∧ omap relayed_url l = []
       ∧ filter (fun c => is_request c = true) l = issued_by c.
Proof.
  destruct c; unfold invoke, state_of.
  - eexists. split; [apply pendingLogin_calls|]. split; reflexivity.
  - exists []. split; [symmetry; apply app_nil_r|]. split; reflexivity.
  - eexists. split; [apply pendingPost_calls|]. split; reflexivity.
  - exists []. split; [symmetry; apply app_nil_r|]. split; reflexivity.
  - exists []. split; [symmetry; apply app_nil_r|]. split; reflexivity.
  - destruct r as [r|].
    + destruct (postCompleted_calls r s) as [n Hn].
      exists (replicate n DataTable). split; [exact Hn|]. apply replicate_DataTable.
    + exists []. split; [symmetry; apply app_nil_r|]. split; reflexivity.
Qed.

Lemma clicks_calls n href s : calls (Nat.iter n (view_link_click href) s) = calls s.
Proof.
  induction n as [|n IH]; [reflexivity|].
  simpl. destruct (view_link_click_table href (Nat.iter n (view_link_click href) s))
    as (_ & _ & ->). exact IH.
Qed.

Lemma resize_calls e s : calls (state_of (resizeIframePostedMessage e s)) = calls s.
Proof.
  unfold resizeIframePostedMessage.
  destruct (decide _); [|reflexivity].
  destruct (Dom.getElementById _ _); [|reflexivity].
  destruct (data e); reflexivity.
Qed.

End Calls.

(** ** The requests to the network service *)

Section Requests.

Context `{Collaborators}.

Lemma invoke_requests c r s :
  requests (state_of (invoke c r s)) = requests s ++ issued_by c.
Proof.
  destruct (invoke_calls c r s) as (l & Hl & _ & Hreq).
  unfold requests at 1. rewrite Hl, requests_app, Hreq. reflexivity.
Qed.

Lemma invoke_relayed c r s : relayed (state_of (invoke c r s)) = relayed s.
Proof.
  destruct (invoke_calls c r s) as (l & Hl & Hrel & _).
  unfold relayed at 1. rewrite Hl, relayed_app, Hrel. apply app_nil_r.
Qed.

Lemma postUrl_requests s : requests (state_of (postUrl s)) = requests s.
Proof.
  unfold postUrl. destruct (Dom.getElementById _ _) as [e|]; [|reflexivity].
  unfold state_of, requests. cbn [calls call set_calls].
  rewrite filter_app. apply app_nil_r.
Qed.

(** The delivery of an event makes the requests of the callback that it
    runs, and no other. *)
Lemma deliver_requests ev s :
  requests (state_of (deliver ev s))
  = requests s ++ from_option issued_by [] (callback_of ev s).
Proof.
  destruct ev as [| | | |r| |href|e|]; unfold deliver, callback_of.
  - destruct (loaded s); [symmetry; apply app_nil_r|].
    rewrite invoke_requests. reflexivity.
  - destruct (session_callbacks s) as [[[c1 c2] c3]|]; [|symmetry; apply app_nil_r].
    rewrite invoke_requests. reflexivity.
  - destruct (session_callbacks s) as [[[c1 c2] c3]|]; [|symmetry; apply app_nil_r].
    rewrite invoke_requests. reflexivity.
  - destruct (session_callbacks s) as [[[c1 c2] c3]|]; [|symmetry; apply app_nil_r].
    rewrite invoke_requests. reflexivity.
  - destruct (fetch_callbacks s) as [|c cs]; [symmetry; apply app_nil_r|].
    rewrite invoke_requests. reflexivity.
  - symmetry. apply app_nil_r.
  - unfold state_of, requests. rewrite clicks_calls. symmetry. apply app_nil_r.
  - destruct (window_message s); [|symmetry; apply app_nil_r].
    unfold requests. rewrite resize_calls. symmetry. apply app_nil_r.
  - destruct (message_link_button_click s); [|symmetry; apply app_nil_r].
    rewrite postUrl_requests. symmetry. apply app_nil_r.
Qed.

Lemma requests_step s0 ph ev s :
  in_phase s0 ph s →
  requests_of ph ++ from_option issued_by [] (callback_of ev s)
  = requests_of (phase_after ph ev).
Proof.
  intros Hin. destruct ph.
  - destruct Hin as [[= Hl Hs Hf _] _].
    destruct ev; unfold callback_of; rewrite ?Hl, ?Hs, ?Hf; reflexivity.
  - destruct Hin as [[= Hl Hs Hf _] _]. unfold wired in Hs.
    destruct ev; unfold callback_of; rewrite ?Hl, ?Hs, ?Hf; reflexivity.
  - destruct Hin as [[= Hl Hs Hf _] _].
    destruct ev; unfold callback_of; rewrite ?Hl, ?Hs, ?Hf; reflexivity.
  - destruct Hin as (Hl & Hs & _ & Hf).
    destruct ev; unfold callback_of; rewrite ?Hl, ?Hs; try reflexivity.
    destruct (fetch_callbacks s) as [|c cs]; [reflexivity|].
    apply Forall_cons in Hf as [<- _]. reflexivity.
Qed.

Lemma run_requests s0 ph evs s :
  in_phase s0 ph s →
  requests s = requests s0 ++ requests_of ph →
  requests (run evs s) = requests s0 ++ requests_of (foldl phase_after ph evs).
Proof.
  revert ph s. induction evs as [|ev evs IH]; intros ph s Hin Hreq; [exact Hreq|].
  simpl. apply IH; [by apply phase_step|].
  rewrite deliver_requests, Hreq, <- app_assoc.
  f_equal. by eapply requests_step.
Qed.

End Requests.

(** ** The listeners and the button *)

Section Wiring.

Context `{Collaborators}.

Lemma view_link_click_wiring href s : wiring (view_link_click href s) = wiring s.
Proof. unfold view_link_click. by destruct (Js.test_letters _). Qed.

Lemma clicks_wiring n href s : wiring (Nat.iter n (view_link_click href) s) = wiring s.
Proof.
  induction n as [|n IH]; [reflexivity|].
  simpl. by rewrite view_link_click_wiring.
Qed.

Lemma add_posts_wiring posts s : wiring (state_of (add_posts posts s)) = wiring s.
Proof.
  revert s. induction posts as [|post rest IH]; intros s; [reflexivity|].
  simpl. destruct (parameterStringToHash _ !! _) as [u|]; [|reflexivity].
  by rewrite IH.
Qed.

Lemma postCompleted_wiring r s : wiring (state_of (postCompleted r s)) = wiring s.
Proof.
  unfold postCompleted. destruct (json r) as [posts|]; [|reflexivity].
  pose proof (add_posts_wiring posts s) as Hw.
  by destruct (add_posts posts s).
Qed.

Lemma pendingLogin_wiring s :
  wiring (pendingLogin s)
  = if decide (platformName = "HOSTED")
    then (Some "display:none", message_link_button_click s, true)
    else (message_link_button_style s, true, true).
Proof. unfold pendingLogin. by destruct (decide _). Qed.

Lemma pendingLogin_hosted s :
  platformName = "HOSTED" →
  message_link_button_style (pendingLogin s) = Some "display:none"
  ∧ message_link_button_click (pendingLogin s) = message_link_button_click s.
Proof.
  intros Hhosted. unfold pendingLogin. rewrite decide_True by done.
  split; reflexivity.
Qed.

Lemma invoke_wiring c r s :
  c ≠ PendingLogin → wiring (state_of (invoke c r s)) = wiring s.
Proof.
  intros Hc. destruct c; try done.
  unfold invoke. destruct r as [r|]; [|reflexivity]. apply postCompleted_wiring.
Qed.

Lemma invoke_loaded c r s : loaded (state_of (invoke c r s)) = loaded s.
Proof.
  destruct c; try reflexivity.
  - change (loaded (pendingLogin s) = loaded s).
    destruct (pendingLogin_controller s) as [Hc _]. by injection Hc.
  - unfold invoke. destruct r as [r|]; [|reflexivity].
    destruct (postCompleted_frame r s) as [Hc _]. by injection Hc.
Qed.

Lemma resize_wiring e s : wiring (state_of (resizeIframePostedMessage e s)) = wiring s.
Proof.
  unfold resizeIframePostedMessage.
  destruct (decide _); [|reflexivity].
  destruct (Dom.getElementById _ _); [|reflexivity].
  destruct (data e); reflexivity.
Qed.

Lemma postUrl_wiring s : wiring (state_of (postUrl s)) = wiring s.
Proof. unfold postUrl. by destruct (Dom.getElementById _ _). Qed.

(** On a hosted page no event makes postUrl listen, relays a link or shows
    the button again. *)
Lemma hosted_step ev s :
  platformName = "HOSTED" →
  message_link_button_click s = false →
  (loaded s = true → message_link_button_style s = Some "display:none") →
  let s' := state_of (deliver ev s) in
  message_link_button_click s' = false
  ∧ (loaded s' = true → message_link_button_style s' = Some "display:none")
  ∧ relayed s' = relayed s.
Proof.
  intros Hhosted Hclick Hstyle s'.
  assert (∀ c r s1, message_link_button_click s1 = false →
            (loaded s1 = true → message_link_button_style s1 = Some "display:none")
            ∨ c = PendingLogin →
            message_link_button_click (state_of (invoke c r s1)) = false
            ∧ (loaded (state_of (invoke c r s1)) = true →
               message_link_button_style (state_of (invoke c r s1)) = Some "display:none")
            ∧ relayed (state_of (invoke c r s1)) = relayed s1) as Hinvoke.
  { intros c r s1 Hc1 Hs1. rewrite invoke_loaded, invoke_relayed.
    assert (c = PendingLogin ∨ c ≠ PendingLogin) as [->|Hne]
      by (destruct c; (by left) || (by right)).
    - unfold invoke, state_of.
      destruct (pendingLogin_hosted s1 Hhosted) as [-> ->]. done.
    - pose proof (invoke_wiring c r s1 Hne) as Hw.
      unfold wiring in Hw. revert Hw. intros [= Hst Hcl _].
      rewrite Hst, Hcl. destruct Hs1 as [Hs1|]; done. }
  assert (∀ s1, wiring s1 = wiring s → loaded s1 = loaded s → calls s1 = calls s →
            message_link_button_click s1 = false
            ∧ (loaded s1 = true → message_link_button_style s1 = Some "display:none")
            ∧ relayed s1 = relayed s) as Hsame.
  { intros s1 Hw Hl Hc. unfold wiring in Hw. revert Hw. intros [= Hst Hcl _].
    unfold relayed. by rewrite Hst, Hcl, Hl, Hc. }
  subst s'. destruct ev as [| | | |r| |href|e|]; unfold deliver.
  - destruct (loaded s) eqn:Hl; [by apply Hsame|].
    exact (Hinvoke PendingLogin None (set_loaded true s) Hclick (or_intror eq_refl)).
  - destruct (session_callbacks s) as [[[c1 c2] c3]|]; [|by apply Hsame].
    exact (Hinvoke c1 None (set_session_callbacks None s) Hclick (or_introl Hstyle)).
  - destruct (session_callbacks s) as [[[c1 c2] c3]|]; [|by apply Hsame].
    exact (Hinvoke c2 None (set_session_callbacks None s) Hclick (or_introl Hstyle)).
  - destruct (session_callbacks s) as [[[c1 c2] c3]|]; [|by apply Hsame].
    exact (Hinvoke c3 None (set_session_callbacks None s) Hclick (or_introl Hstyle)).
  - destruct (fetch_callbacks s) as [|c cs]; [by apply Hsame|].
    exact (Hinvoke c (Some r) (set_fetch_callbacks cs s) Hclick (or_introl Hstyle)).
  - by apply Hsame.
  - apply Hsame; [apply clicks_wiring| |apply clicks_calls].
    pose proof (clicks_controller (view_link_handlers s) href s) as Hc.
    unfold controller in Hc. by injection Hc.
  - destruct (window_message s); [|by apply Hsame].
    apply Hsame; [apply resize_wiring| |apply resize_calls].
    destruct (resize_frame e s) as (Hc & _). unfold controller in Hc. by injection Hc.
  - rewrite Hclick. by apply Hsame.
Qed.

End Wiring.

(** ** More facts about the string primitives *)

Module JsMore.
Import Js.

Lemma length_app s t :
  String.length (s +:+ t) = String.length s + String.length t.
Proof.
  induction s as [|c s IH]; [reflexivity|].
  rewrite JsFacts.app_cons. simpl. by rewrite IH.
Qed.

Lemma starts_with_length p s :
  starts_with p s = true →
  String.length (skip (String.length p) s) + String.length p = String.length s.
Proof.
  revert s. induction p as [|a p IH]; intros s.
  - intros _. destruct s; simpl; lia.
  - destruct s as [|b s]; [done|]. simpl.
    destruct (decide (a = b)); [|done]. intros Hp. specialize (IH s Hp). lia.
Qed.

(** A replacement as long as the pattern keeps the length of the string. *)
Lemma replace_length p r s :
  String.length p = String.length r →
  String.length (replace p r s) = String.length s.
Proof.
  intros Hpr. induction s as [|c s IH]; simpl.
  - destruct p as [|a p]; [|reflexivity].
    destruct r as [|b r]; [reflexivity|done].
  - destruct (starts_with p (String c s)) eqn:Hp.
    + rewrite length_app. pose proof (starts_with_length p (String c s) Hp) as Hl.
      simpl in Hl. rewrite <- Hpr. lia.
    + simpl. by rewrite IH.
Qed.

(** A string without the separator is its own single field. *)
Lemma split_absent c s :
  indexOf (String c EmptyString) s = None → split c s = [s].
Proof.
  induction s as [|x s IH]; [reflexivity|].
  simpl. destruct (decide (c = x)) as [->|Hne]; [done|].
  destruct (indexOf (String c EmptyString) s); [done|]. intros _.
  rewrite decide_False by congruence. by rewrite IH.
Qed.

Lemma substr_whole_absent p s :
  indexOf p s = None → substr_after_indexOf p s = s.
Proof. intros Hp. unfold substr_after_indexOf. rewrite Hp. by destruct s. Qed.

End JsMore.

(** ** Properties of the controller *)

Section Controller_more.

Context `{Collaborators}.

Lemma posting_is_final evs : foldl phase_after Posting evs = Posting.
Proof. induction evs as [|ev evs IH]; [done|]. by destruct ev. Qed.

(** X1: whatever is delivered to a freshly parsed page, the page asks the
    network service for the session once at most and for the post list once
    at most, in that order, and the post list is asked at
    contentServerDomain + "/posts" with postCompleted as its only callback:
    nothing is asked twice. *)
Theorem requests_made_once (s0 : Page) (evs : list Event) :
  fresh s0 = true →
  ∃ l, requests (run evs s0) = requests s0 ++ l
       ∧ (l = []
          ∨ l = [InitPrivlyService true PendingPost LoginFailure LoginFailure]
          ∨ l = [InitPrivlyService true PendingPost LoginFailure LoginFailure;
                 SameOriginGetRequest (contentServerDomain +:+ "/posts") PostCompleted]).
Proof.
  intros Hfresh.
  exists (requests_of (foldl phase_after Unloaded evs)). split.
  - apply run_requests; [by apply fresh_unloaded|].
    symmetry. apply app_nil_r.
  - destruct (foldl phase_after Unloaded evs); simpl; auto.
Qed.

(** X2: on the HOSTED platform pendingLogin hides #message_link_button and
    does not make postUrl listen, and nothing undoes that: whatever is
    delivered afterwards, no link is relayed to the extension. *)
Theorem hosted_never_relays (s0 : Page) (evs : list Event) :
  platformName = "HOSTED" →
  fresh s0 = true →
  message_link_button_click (run evs s0) = false
  ∧ relayed (run evs s0) = relayed s0
  ∧ (loaded (run evs s0) = true →
     message_link_button_style (run evs s0) = Some "display:none").
Proof.
  intros Hhosted Hfresh.
  assert (message_link_button_click s0 = false
          ∧ (loaded s0 = true → message_link_button_style s0 = Some "display:none"))
    as [Hclick Hstyle].
  { unfold fresh in Hfresh.
    rewrite !andb_true_iff, !negb_true_iff in Hfresh.
    destruct Hfresh as (((((Hl & _) & _) & Hc) & _) & _).
    split; [exact Hc|]. rewrite Hl. done. }
  clear Hfresh. generalize (eq_refl (relayed s0)).
  generalize (relayed s0) at 1 3. intros l Hl.
  revert s0 Hclick Hstyle Hl.
  induction evs as [|ev evs IH]; intros s Hclick Hstyle Hl.
  - split; [exact Hclick|]. split; [by symmetry|exact Hstyle].
  - simpl. destruct (hosted_step ev s Hhosted Hclick Hstyle) as (Hc' & Hs' & Hr').
    apply IH; [exact Hc'|exact Hs'|]. by rewrite Hr'.
Qed.

(** X3: when the session check is answered through the can-post callback,
    pendingPost runs and empties #messages, and no later event writes to
    #messages: neither the sign-in prompt nor any other text is shown. *)
Theorem can_post_clears_messages (s0 : Page) (evs1 : list Event) :
  fresh s0 = true →
  is_Some (session_callbacks (run evs1 s0)) →
  let s1 := run evs1 s0 in
  deliver CanPost s1 = Returned (pendingPost (set_session_callbacks None s1))
  ∧ ∀ evs2, messages (run evs2 (state_of (deliver CanPost s1))) = Text EmptyString
            ∧ session_callbacks (run evs2 (state_of (deliver CanPost s1))) = None.
Proof.
  intros Hfresh Hpending s1.
  pose proof (run_phase s0 Unloaded evs1 s0 (fresh_unloaded s0 Hfresh)) as Hin.
  fold s1 in Hin, Hpending.
  destruct (foldl phase_after Unloaded evs1) eqn:Hph;
    try (destruct Hin as [[= _ Hs _ _] _]; rewrite Hs in Hpending; by destruct Hpending).
  2:{ destruct Hin as (_ & Hs & _). rewrite Hs in Hpending. by destruct Hpending. }
  assert (deliver CanPost s1 = Returned (pendingPost (set_session_callbacks None s1))) as Hd.
  { destruct Hin as [[= _ Hs _ _] _]. unfold deliver. by rewrite Hs. }
  split; [exact Hd|]. intros evs2.
  pose proof (phase_step s0 PendingLoginCheck CanPost s1 Hin) as Hpost.
  pose proof (run_phase s0 Posting evs2 _ Hpost) as Hrun.
  rewrite posting_is_final in Hrun.
  destruct Hrun as (_ & Hs & Hm & _). by split.
Qed.

Lemma invoke_without_response c s :
  posts_rows (state_of (invoke c None s)) = posts_rows s
  ∧ view_link_handlers (state_of (invoke c None s)) = view_link_handlers s.
Proof.
  destruct c; try (split; reflexivity).
  unfold invoke, state_of, pendingLogin. by destruct (decide _).
Qed.

(** X4: only the answer to the request for the post list adds rows to the
    table or attaches a click handler: every other event, on any page,
    leaves the rows and the handlers as they are. *)
Theorem rows_only_from_response (ev : Event) (s : Page) :
  (∀ r, ev ≠ PostsResponse r) →
  posts_rows (state_of (deliver ev s)) = posts_rows s
  ∧ view_link_handlers (state_of (deliver ev s)) = view_link_handlers s.
Proof.
  intros Hev. destruct ev as [| | | |r| |href|e|]; unfold deliver.
  - destruct (loaded s); [done|]. exact (invoke_without_response PendingLogin (set_loaded true s)).
  - destruct (session_callbacks s) as [[[c1 c2] c3]|]; [|done].
    exact (invoke_without_response c1 (set_session_callbacks None s)).
  - destruct (session_callbacks s) as [[[c1 c2] c3]|]; [|done].
    exact (invoke_without_response c2 (set_session_callbacks None s)).
  - destruct (session_callbacks s) as [[[c1 c2] c3]|]; [|done].
    exact (invoke_without_response c3 (set_session_callbacks None s)).
  - by destruct (Hev r).
  - done.
  - exact (clicks_table (view_link_handlers s) href s).
  - destruct (window_message s); [|done].
    destruct (resize_frame e s) as (_ & Hr & Hh). by split.
  - destruct (message_link_button_click s); [|done].
    destruct (postUrl_frame s) as (_ & Hr & _ & Hh). by split.
Qed.

End Controller_more.

(** ** Properties of the preview *)

Section Preview_more.

Context `{Collaborators}.

Ltac iframe_attributes :=
  unfold preview_iframe; cbn [foldl]; rewrite !setAttribute_style;
  repeat (rewrite setAttribute_other by discriminate;
          cbn [Dom.node Dom.tagName Dom.attributes Dom.style]).

Lemma preview_iframe_canonical_href n href app params :
  Dom.getAttribute "data-canonical-href" (preview_iframe n href app params) = Some href.
Proof.
  unfold Dom.getAttribute. iframe_attributes.
  rewrite !(lookup_insert_ne _ _ "data-canonical-href") by discriminate.
  apply lookup_insert_eq.
Qed.

(** A click run by [S n] handlers whose app name passes the test leaves the
    iframe built by the last of them. *)
Lemma clicks_accepted n href s :
  let params := Js.substr_after_indexOf "?" href in
  let app := parameterStringToHash params !! "privlyApp" in
  Js.test_letters app = true →
  privly_iframe (Nat.iter (S n) (view_link_click href) s)
    = [preview_iframe (created_nodes s + n) href (Js.to_string app) params]
  ∧ created_nodes (Nat.iter (S n) (view_link_click href) s) = created_nodes s + S n.
Proof.
  intros params app Happ. induction n as [|n [IHp IHn]].
  - simpl. destruct (view_link_click_accepted href s Happ) as [-> ->].
    rewrite Nat.add_0_r. split; [reflexivity|lia].
  - change (Nat.iter (S (S n)) (view_link_click href) s)
      with (view_link_click href (Nat.iter (S n) (view_link_click href) s)).
    destruct (view_link_click_accepted href (Nat.iter (S n) (view_link_click href) s) Happ)
      as [-> ->].
    rewrite IHn. fold params. fold app. split; [reflexivity|lia].
Qed.

(** X5: every click on a View link, whether its app name passes the test or
    not, takes col-lg-12 from the table column, gives it col-lg-8, gives the
    preview column col-lg-4 and display inherit, keeps every other class,
    and calls no collaborator; a second click changes the layout no more. *)
Theorem view_link_click_layout (href href' : string) (s : Page) :
  let s' := view_link_click href s in
  (∀ c, c ∈ table_col_class s' ↔
        c = "col-lg-8" ∨ (c ∈ table_col_class s ∧ c ≠ "col-lg-12"))
  ∧ (∀ c, c ∈ iframe_col_class s' ↔ c = "col-lg-4" ∨ c ∈ iframe_col_class s)
  ∧ iframe_col_css s' = <["display":="inherit"]> (iframe_col_css s)
  ∧ calls s' = calls s
  ∧ layout (view_link_click href' s') = layout s'.
Proof.
  intros s'.
  assert (table_col_class s' = {["col-lg-8"]} ∪ (table_col_class s ∖ {["col-lg-12"]})
          ∧ iframe_col_class s' = {["col-lg-4"]} ∪ iframe_col_class s
          ∧ iframe_col_css s' = <["display":="inherit"]> (iframe_col_css s)
          ∧ calls s' = calls s) as (Ht & Hi & Hc & Hcalls).
  { unfold s', view_link_click. by destruct (Js.test_letters _). }
  assert (layout (view_link_click href' s')
          = ({["col-lg-8"]} ∪ (table_col_class s' ∖ {["col-lg-12"]}),
             {["col-lg-4"]} ∪ iframe_col_class s',
             <["display":="inherit"]> (iframe_col_css s'))) as Hagain.
  { unfold view_link_click at 1. by destruct (Js.test_letters _). }
  split; [|split; [|split; [exact Hc|split; [exact Hcalls|]]]].
  - intros c. rewrite Ht. set_unfold. tauto.
  - intros c. rewrite Hi. set_unfold. tauto.
  - rewrite Hagain. unfold layout. rewrite Ht, Hi, Hc.
    f_equal; [f_equal|].
    + apply set_eq. intros c. set_unfold. tauto.
    + apply set_eq. intros c. set_unfold. tauto.
    + apply insert_insert_eq.
Qed.

(** X6: a click on a View link does nothing at all while no handler is
    attached (before the post list has arrived); with k handlers and an app
    name that passes the test the container ends with one iframe, the one
    that the last handler built, with the link's attributes. *)
Theorem click_with_handlers (href : string) (s : Page) :
  (view_link_handlers s = 0 → deliver (ClickViewLink href) s = Returned s)
  ∧ (∀ n,
       view_link_handlers s = S n →
       let params := Js.substr_after_indexOf "?" href in
       let app := parameterStringToHash params !! "privlyApp" in
       Js.test_letters app = true →
       privly_iframe (state_of (deliver (ClickViewLink href) s))
       = [preview_iframe (created_nodes s + n) href (Js.to_string app) params]).
Proof.
  split.
  - intros Hk. unfold deliver. by rewrite Hk.
  - intros n Hk params app Happ. unfold deliver, state_of. rewrite Hk.
    exact (proj1 (clicks_accepted n href s Happ)).
Qed.

(** X7: on a page where postUrl listens, once a View link with an accepted
    app name has been clicked, a click on #message_link_button relays to the
    extension exactly the link of that View link, whatever was previewed
    before, and leaves the preview as it is. *)
Theorem postUrl_relays_previewed_link (href a : string) (n : nat) (s : Page) :
  message_link_button_click s = true →
  view_link_handlers s = S n →
  parameterStringToHash (Js.substr_after_indexOf "?" href) !! "privlyApp" = Some a →
  Js.letters_only a = true →
  let s1 := state_of (deliver (ClickViewLink href) s) in
  ∃ s2, deliver ClickMessageLinkButton s1 = Returned s2
        ∧ relayed s2 = relayed s ++ [Some href]
        ∧ preview s2 = preview s1.
Proof.
  intros Hlisten Hk Ha Hletters s1.
  assert (Js.test_letters
            (parameterStringToHash (Js.substr_after_indexOf "?" href) !! "privlyApp") = true)
    as Happ by (by rewrite Ha).
  assert (s1 = Nat.iter (S n) (view_link_click href) s) as Hs1.
  { unfold s1, deliver, state_of. by rewrite Hk. }
  destruct (clicks_accepted n href s Happ) as [Hp _].
  rewrite <- Hs1 in Hp.
  assert (message_link_button_click s1 = true) as Hlisten1.
  { rewrite Hs1. pose proof (clicks_wiring (S n) href s) as Hw.
    unfold wiring in Hw. revert Hw. intros [= _ Hc _].
    etrans; [exact Hc|exact Hlisten]. }
  assert (calls s1 = calls s) as Hcalls by (rewrite Hs1; apply clicks_calls).
  unfold deliver. rewrite Hlisten1. unfold postUrl. rewrite Hp.
  cbn [Dom.getElementById]. rewrite preview_iframe_id.
  eexists. split; [reflexivity|]. split; [|reflexivity].
  unfold relayed. cbn [calls call set_calls]. rewrite Hcalls, omap_app.
  cbn [omap relayed_url]. rewrite preview_iframe_canonical_href. reflexivity.
Qed.

End Preview_more.

(** ** Properties of the resize messages, the links and the rows *)

Section Resize_rows.

Context `{Collaborators}.




Lemma resize_own_origin e d s :
  origin e = location_origin →
  data e = DataString d →
  is_Some (Dom.getElementById "ifrm0" (privly_iframe s)) →
  resizeIframePostedMessage e s
  = Returned (set_privly_iframe
                (Dom.update_by_id "ifrm0"
                   (Dom.set_style_height (height_value (posted_height d)))
                   (privly_iframe s)) s).
Proof.
  intros Ho Hd [el Hel]. unfold resizeIframePostedMessage.
  rewrite decide_True by exact Ho. by rewrite Hel, Hd.
Qed.


(** X9: a message from the page's own origin whose data is a string without
    a comma has no second field: the text assigned to the height of the
    preview iframe's style is "undefinedpx", and as the browser reads no
    height in it the assignment is dropped and the page stays exactly as it
    is. *)
Theorem resize_without_comma (e : MessageEvent) (d : string) (s : Page) :
  origin e = location_origin →
  data e = DataString d →
  Js.indexOf "," d = None →
  is_Some (Dom.getElementById "ifrm0" (privly_iframe s)) →
  posted_height d = "undefinedpx"
  ∧ resizeIframePostedMessage e s
    = Returned (set_privly_iframe
                  (Dom.update_by_id "ifrm0"
                     (Dom.set_style_height (height_value "undefinedpx"))
                     (privly_iframe s)) s)
  ∧ (height_value "undefinedpx" = None → resizeIframePostedMessage e s = Returned s).
Proof.
  intros Ho Hd Hcomma Hel.
  assert (posted_height d = "undefinedpx") as Hposted.
  { unfold posted_height. by rewrite (JsMore.split_absent "," d Hcomma). }
  split; [exact Hposted|]. split.
  - rewrite (resize_own_origin e d s Ho Hd Hel). by rewrite Hposted.
  - intros Hnone. apply (resize_dropped e d s Ho Hd Hel). by rewrite Hposted.
Qed.

(** X10: a View link without "?" is taken whole as the parameter string:
    the app name is decoded from the whole link and the src of the iframe
    ends with the whole link. *)
Theorem link_without_query (href a : string) (s : Page) :
  Js.indexOf "?" href = None →
  parameterStringToHash href !! "privlyApp" = Some a →
  Js.letters_only a = true →
  ∃ e, privly_iframe (view_link_click href s) = [e]
       ∧ Dom.getAttribute "src" e = Some ("../" +:+ a +:+ "/show.html?" +:+ href)
       ∧ Dom.getAttribute "data-canonical-href" e = Some href.
Proof.
  intros Hq Ha Hletters.
  pose proof (JsMore.substr_whole_absent "?" href Hq) as Hparams.
  assert (Js.test_letters
            (parameterStringToHash (Js.substr_after_indexOf "?" href) !! "privlyApp") = true)
    as Happ by (by rewrite Hparams, Ha).
  destruct (view_link_click_accepted href s Happ) as [Hp _].
  eexists. split; [exact Hp|]. split.
  - rewrite preview_iframe_src, Hparams, Ha. reflexivity.
  - apply preview_iframe_canonical_href.
Qed.

(** X11: the manage link is as long as the data URL it is made from, and a
    data URL that holds neither "format=json" nor ".json" is its own manage
    link. *)
Theorem manageURL_length (u : string) :
  String.length (manageURL u) = String.length u
  ∧ (Js.indexOf "format=json" u = None → Js.indexOf ".json" u = None → manageURL u = u).
Proof.
  split.
  - unfold manageURL. by rewrite !JsMore.replace_length.
  - intros Hf Hj. unfold manageURL.
    rewrite (JsFacts.replace_absent _ _ _ Hf). by apply JsFacts.replace_absent.
Qed.

Lemma add_posts_rows posts rows s :
  mapM row_of posts = Some rows →
  ∃ s', add_posts posts s = Returned s' ∧ posts_rows s' = posts_rows s ++ rows.
Proof.
  revert rows s. induction posts as [|post rest IH]; intros rows s Hrows.
  - injection Hrows as <-. exists s. split; [reflexivity|]. by rewrite app_nil_r.
  - rewrite mapM_Some in Hrows. destruct rows as [|row rows].
    { by apply Forall2_cons_nil_inv in Hrows. }
    apply Forall2_cons in Hrows as [Hrow Hrest].
    rewrite <- mapM_Some in Hrest.
    unfold row_of in Hrow. simpl.
    destruct (parameterStringToHash (privly_URL post) !! "privlyDataURL") as [u|]; [|done].
    injection Hrow as <-.
    destruct (IH rows (fnAddData (post_row post (manageURL u)) s) Hrest) as (s' & Hs' & Hr).
    exists s'. split; [exact Hs'|]. rewrite Hr.
    cbn [posts_rows fnAddData set_posts_rows]. by rewrite <- app_assoc.
Qed.

Lemma add_posts_throws good bad rest rows s :
  mapM row_of good = Some rows →
  row_of bad = None →
  ∃ s', add_posts (good ++ bad :: rest) s = Thrown s'
        ∧ posts_rows s' = posts_rows s ++ rows.
Proof.
  revert rows s. induction good as [|post good IH]; intros rows s Hrows Hbad.
  - injection Hrows as <-. exists s. split; [|by rewrite app_nil_r].
    unfold row_of in Hbad. simpl.
    by destruct (parameterStringToHash (privly_URL bad) !! "privlyDataURL").
  - rewrite mapM_Some in Hrows. destruct rows as [|row rows].
    { by apply Forall2_cons_nil_inv in Hrows. }
    apply Forall2_cons in Hrows as [Hrow Hrest].
    rewrite <- mapM_Some in Hrest.
    unfold row_of in Hrow. simpl.
    destruct (parameterStringToHash (privly_URL post) !! "privlyDataURL") as [u|]; [|done].
    injection Hrow as <-.
    destruct (IH rows (fnAddData (post_row post (manageURL u)) s) Hrest Hbad)
      as (s' & Hs' & Hr).
    exists s'. split; [exact Hs'|]. rewrite Hr.
    cbn [posts_rows fnAddData set_posts_rows]. by rewrite <- app_assoc.
Qed.

(** X12: for an array in which every record's link carries a data URL,
    postCompleted returns, has added to the table one row per record, in the
    order of the array and after the rows that were there, each row being
    the View link, the Manage link and the five fields of its record, and
    has attached one click handler. *)
Theorem postCompleted_rows (posts : list Post) (rows : list Row) (s : Page) :
  mapM row_of posts = Some rows →
  ∃ s', postCompleted (mkResponse (JArray posts)) s = Returned s'
        ∧ posts_rows s' = posts_rows s ++ rows
        ∧ length rows = length posts
        ∧ Forall (fun row => length row = 7) rows
        ∧ view_link_handlers s' = S (view_link_handlers s).
Proof.
  intros Hrows.
  destruct (add_posts_rows posts rows s Hrows) as (s1 & Hs1 & Hr).
  pose proof (add_posts_frame posts s) as (_ & _ & Hh).
  rewrite Hs1 in Hh. cbn [state_of] in Hh.
  exists (set_view_link_handlers (S (view_link_handlers s1)) s1).
  split; [unfold postCompleted; cbn [json]; by rewrite Hs1|].
  split; [exact Hr|]. rewrite mapM_Some in Hrows.
  split; [symmetry; by eapply Forall2_length|].
  split; [|cbn [view_link_handlers set_view_link_handlers]; by rewrite Hh].
  clear -Hrows. induction Hrows as [|post row posts rows Hrow _ IH]; [constructor|].
  constructor; [|exact IH]. unfold row_of in Hrow.
  destruct (parameterStringToHash _ !! _); [|done]. by injection Hrow as <-.
Qed.

(** X13: at the first record whose link carries no data URL postCompleted
    throws: the rows of the records before it are in the table, the rows of
    the records after it are not, and no click handler was attached. *)
Theorem postCompleted_stops_at_bad_record
    (good rest : list Post) (bad : Post) (rows : list Row) (s : Page) :
  mapM row_of good = Some rows →
  row_of bad = None →
  ∃ s', postCompleted (mkResponse (JArray (good ++ bad :: rest))) s = Thrown s'
        ∧ posts_rows s' = posts_rows s ++ rows
        ∧ view_link_handlers s' = view_link_handlers s
        ∧ preview s' = preview s.
Proof.
  intros Hrows Hbad.
  destruct (add_posts_throws good bad rest rows s Hrows Hbad) as (s1 & Hs1 & Hr).
  pose proof (add_posts_frame (good ++ bad :: rest) s) as (_ & Hp & Hh).
  rewrite Hs1 in Hp, Hh. cbn [state_of] in Hp, Hh.
  exists s1. split; [unfold postCompleted; cbn [json]; by rewrite Hs1|].
  split; [exact Hr|]. split; [exact Hh|exact Hp].
Qed.

End Resize_rows.

(** ** The handshake with the extension and the listeners *)

Section Handshake.

Context `{Collaborators}.

Lemma invoke_handshake c r s :
  handshake (state_of (invoke c r s))
  = handshake s ++ match c with
                   | PendingLogin => [SetInitialContentHook; SetMessageSecretHook;
                                      FirePrivlyMessageSecretEvent]
                   | _ => []
                   end.
Proof.
  unfold handshake.
  destruct c; unfold invoke, state_of; try (symmetry; apply app_nil_r).
  - rewrite pendingLogin_calls, filter_app. reflexivity.
  - rewrite pendingPost_calls, filter_app. reflexivity.
  - destruct r as [r|]; [|symmetry; apply app_nil_r].
    destruct (postCompleted_calls r s) as [n Hn].
    unfold state_of in Hn. rewrite Hn, filter_app.
    assert (filter (fun c => is_handshake c = true) (replicate n DataTable) = []) as ->.
    { clear. induction n as [|n IH]; [reflexivity|exact IH]. }
    reflexivity.
Qed.

Lemma postUrl_handshake s : handshake (state_of (postUrl s)) = handshake s.
Proof.
  unfold postUrl. destruct (Dom.getElementById _ _) as [e|]; [|reflexivity].
  unfold state_of, handshake. cbn [calls call set_calls].
  rewrite filter_app. apply app_nil_r.
Qed.

Lemma loaded_phase s0 ph s :
  in_phase s0 ph s → loaded s = match ph with Unloaded => false | _ => true end.
Proof.
  destruct ph; intros Hin.
  - by destruct Hin as [[= Hl _ _ _] _].
  - by destruct Hin as [[= Hl _ _ _] _].
  - by destruct Hin as [[= Hl _ _ _] _].
  - by destruct Hin as (Hl & _).
Qed.

(** X14: messaging.initialize is run by pendingLogin and by no other
    handler.  pendingLogin gives privlyExtension the initialContent hook,
    then the messageSecret hook, then fires the message-secret event, once
    each; loginFailure, pendingPost, postSubmit, createError, postCompleted,
    the click handler of the View links, resizeIframePostedMessage and
    postUrl do none of the three. *)
Theorem handshake_by_pendingLogin_alone (s : Page) :
  handshake (pendingLogin s)
  = handshake s ++ [SetInitialContentHook; SetMessageSecretHook;
                    FirePrivlyMessageSecretEvent]
  ∧ handshake (loginFailure s) = handshake s
  ∧ handshake (pendingPost s) = handshake s
  ∧ handshake (postSubmit s) = handshake s
  ∧ handshake (createError s) = handshake s
  ∧ (∀ r, handshake (state_of (postCompleted r s)) = handshake s)
  ∧ (∀ href, handshake (view_link_click href s) = handshake s)
  ∧ (∀ e, handshake (state_of (resizeIframePostedMessage e s)) = handshake s)
  ∧ handshake (state_of (postUrl s)) = handshake s.
Proof.
  split; [exact (invoke_handshake PendingLogin None s)|].
  split; [reflexivity|].
  split.
  { rewrite <- (app_nil_r (handshake s)). exact (invoke_handshake PendingPost None s). }
  split; [reflexivity|]. split; [reflexivity|].
  split.
  { intros r. rewrite <- (app_nil_r (handshake s)).
    exact (invoke_handshake PostCompleted (Some r) s). }
  split.
  { intros href. unfold handshake.
    by destruct (view_link_click_table href s) as (_ & _ & ->). }
  split; [|apply postUrl_handshake].
  intros e. unfold handshake. by rewrite resize_calls.
Qed.

Lemma wiring_step s0 ph ev s :
  in_phase s0 ph s →
  wiring s = wiring_of ph s0 →
  wiring (state_of (deliver ev s)) = wiring_of (phase_after ph ev) s0.
Proof.
  intros Hin Hw.
  assert (loaded s = match ph with Unloaded => false | _ => true end
          ∧ session_callbacks s = match ph with PendingLoginCheck => wired | _ => None end
          ∧ Forall (eq PostCompleted) (fetch_callbacks s)) as (Hl & Hs & Hf).
  { destruct ph.
    - destruct Hin as [[= Hl Hs Hf _] _]. rewrite Hf. by repeat split.
    - destruct Hin as [[= Hl Hs Hf _] _]. rewrite Hf. by repeat split.
    - destruct Hin as [[= Hl Hs Hf _] _]. rewrite Hf. by repeat split.
    - destruct Hin as (Hl & Hs & _ & Hf). by repeat split. }
  destruct ev as [| | | |r| |href|e|]; unfold deliver.
  - rewrite Hl. destruct ph; try exact Hw.
    change (wiring (pendingLogin (set_loaded true s)) = wiring_of PendingLoginCheck s0).
    rewrite pendingLogin_wiring. unfold wiring_of, wiring in *.
    revert Hw. intros [= Hst Hcl _]. cbn [message_link_button_click
      message_link_button_style set_loaded]. by rewrite Hst, Hcl.
  - rewrite Hs. destruct ph; unfold wired; exact Hw.
  - rewrite Hs. destruct ph; unfold wired; exact Hw.
  - rewrite Hs. destruct ph; unfold wired; exact Hw.
  - replace (phase_after ph (PostsResponse r)) with ph by (by destruct ph).
    destruct (fetch_callbacks s) as [|c cs]; [exact Hw|].
    apply Forall_cons in Hf as [<- _].
    rewrite (invoke_wiring PostCompleted (Some r) (set_fetch_callbacks cs s)) by done.
    exact Hw.
  - replace (phase_after ph PostsNoResponse) with ph by (by destruct ph). exact Hw.
  - replace (phase_after ph (ClickViewLink href)) with ph by (by destruct ph).
    unfold state_of. rewrite clicks_wiring. exact Hw.
  - replace (phase_after ph (WindowMessage e)) with ph by (by destruct ph).
    destruct (window_message s); [|exact Hw]. rewrite resize_wiring. exact Hw.
  - replace (phase_after ph ClickMessageLinkButton) with ph by (by destruct ph).
    destruct (message_link_button_click s); [|exact Hw]. rewrite postUrl_wiring. exact Hw.
Qed.

(** X15: once the page is loaded, resizeIframePostedMessage listens to the
    window's messages on every platform, whatever the session check
    answers; on a platform other than HOSTED postUrl listens to the button
    and the button's style is left as the markup has it; and no later event
    changes any of this. *)
Theorem listeners_after_load (s0 : Page) (evs : list Event) :
  fresh s0 = true →
  loaded (run evs s0) = true →
  window_message (run evs s0) = true
  ∧ (platformName ≠ "HOSTED" →
     message_link_button_click (run evs s0) = true
     ∧ message_link_button_style (run evs s0) = message_link_button_style s0).
Proof.
  intros Hfresh Hloaded.
  pose proof (fresh_unloaded s0 Hfresh) as Hin.
  assert (∀ ph s, in_phase s0 ph s → wiring s = wiring_of ph s0 →
            wiring (run evs s) = wiring_of (foldl phase_after ph evs) s0) as Hrun.
  { clear Hloaded. induction evs as [|ev evs IH]; intros ph s Hph Hw; [exact Hw|].
    simpl. apply IH; [by apply phase_step|by apply wiring_step]. }
  specialize (Hrun Unloaded s0 Hin eq_refl).
  rewrite (loaded_phase s0 _ _ (run_phase s0 Unloaded evs s0 Hin)) in Hloaded.
  unfold wiring in Hrun.
  destruct (foldl phase_after Unloaded evs); [done|..];
    unfold wiring_of in Hrun; destruct (decide (platformName = "HOSTED"));
    revert Hrun; intros [= Hst Hcl Hwm]; (split; [exact Hwm|]); intros Hne; done.
Qed.

End Handshake.

(** ** The further properties at the sample pages *)

Lemma requests_made_once_witness :
  ∃ l, requests (@run extension
                   [DOMContentLoaded; DOMContentLoaded; CanPost; CanPost;
                    PostsResponse (mkResponse (JArray [sample_post])); SessionError] blank)
       = requests blank ++ l
       ∧ (l = []
          ∨ l = [InitPrivlyService true PendingPost LoginFailure LoginFailure]
          ∨ l = [InitPrivlyService true PendingPost LoginFailure LoginFailure;
                 SameOriginGetRequest ("https://priv.ly" +:+ "/posts") PostCompleted]).
Proof. apply (@requests_made_once extension blank). reflexivity. Defined.

Lemma hosted_never_relays_witness :
  let s := @run hosted
             [DOMContentLoaded; CanPost; PostsResponse (mkResponse (JArray [sample_post]));
              ClickViewLink sample_link; ClickMessageLinkButton] blank in
  message_link_button_click s = false
  ∧ relayed s = relayed blank
  ∧ (loaded s = true → message_link_button_style s = Some "display:none").
Proof. apply (@hosted_never_relays hosted blank); reflexivity. Defined.

Lemma can_post_clears_messages_witness :
  let s1 := @run extension [DOMContentLoaded] blank in
  @deliver extension CanPost s1
  = Returned (@pendingPost extension (set_session_callbacks None s1))
  ∧ messages (@run extension [SessionError; PostsResponse (mkResponse JObject)]
                (state_of (@deliver extension CanPost s1))) = Text EmptyString.
Proof.
  intros s1.
  destruct (@can_post_clears_messages extension blank [DOMContentLoaded]
              eq_refl ltac:(by eexists)) as [Hd Hafter].
  split; [exact Hd|].
  exact (proj1 (Hafter [SessionError; PostsResponse (mkResponse JObject)])).
Defined.

Lemma rows_only_from_response_witness :
  posts_rows (state_of (@deliver extension (ClickViewLink sample_link) listed))
  = posts_rows listed
  ∧ view_link_handlers (state_of (@deliver extension (ClickViewLink sample_link) listed))
    = view_link_handlers listed.
Proof.
  apply (@rows_only_from_response extension (ClickViewLink sample_link) listed).
  intros r. discriminate.
Defined.

Lemma click_with_handlers_witness :
  @deliver extension (ClickViewLink sample_link) blank = Returned blank
  ∧ ∃ e, privly_iframe (state_of (@deliver extension (ClickViewLink sample_link) listed))
         = [e].
Proof.
  destruct (@click_with_handlers extension sample_link blank) as [Hnone _].
  destruct (@click_with_handlers extension sample_link listed) as [_ Hsome].
  split; [by apply Hnone|].
  eexists. apply (Hsome 0); by vm_compute.
Defined.

Lemma postUrl_relays_previewed_link_witness :
  ∃ s2, @deliver extension ClickMessageLinkButton
          (state_of (@deliver extension (ClickViewLink sample_link) listed)) = Returned s2
        ∧ relayed s2 = relayed listed ++ [Some sample_link]
        ∧ preview s2 = preview (state_of (@deliver extension (ClickViewLink sample_link) listed)).
Proof.
  apply (@postUrl_relays_previewed_link extension sample_link "PlainPost" 0 listed);
    by vm_compute.
Defined.


Lemma resize_without_comma_witness :
  @resizeIframePostedMessage extension bare_message previewing = Returned previewing.
Proof.
  apply (proj2 (proj2 (@resize_without_comma extension bare_message "240" previewing
                         eq_refl eq_refl eq_refl
                         ltac:(vm_compute; eexists; reflexivity)))).
  reflexivity.
Defined.

Lemma link_without_query_witness :
  ∃ e, privly_iframe (@view_link_click extension bare_link blank) = [e]
       ∧ Dom.getAttribute "src" e = Some ("../" +:+ "PlainPost" +:+ "/show.html?" +:+ bare_link)
       ∧ Dom.getAttribute "data-canonical-href" e = Some bare_link.
Proof.
  apply (@link_without_query extension bare_link "PlainPost" blank); by vm_compute.
Defined.

Lemma manageURL_length_witness :
  String.length (manageURL "https://priv.ly/posts/1.json?format=json")
  = String.length "https://priv.ly/posts/1.json?format=json"
  ∧ manageURL "https://priv.ly/posts/5" = "https://priv.ly/posts/5".
Proof.
  split.
  - exact (proj1 (manageURL_length "https://priv.ly/posts/1.json?format=json")).
  - apply (proj2 (manageURL_length "https://priv.ly/posts/5")); reflexivity.
Defined.

Lemma postCompleted_rows_witness :
  ∃ rows s',
    mapM (@row_of extension) [sample_post; format_post] = Some rows
    ∧ @postCompleted extension (mkResponse (JArray [sample_post; format_post])) blank
      = Returned s'
    ∧ posts_rows s' = posts_rows blank ++ rows
    ∧ length rows = 2
    ∧ view_link_handlers s' = 1.
Proof.
  destruct (mapM (@row_of extension) [sample_post; format_post]) as [rows|] eqn:Hrows;
    [|by vm_compute in Hrows].
  destruct (@postCompleted_rows extension [sample_post; format_post] rows blank Hrows)
    as (s' & Hs' & Hr & Hlen & _ & Hh).
  exists rows, s'. split; [reflexivity|]. split; [exact Hs'|]. split; [exact Hr|].
  split; [exact Hlen|exact Hh].
Defined.

Lemma postCompleted_stops_at_bad_record_witness :
  ∃ rows s',
    @postCompleted extension (mkResponse (JArray [sample_post; bare_post; format_post])) blank
    = Thrown s'
    ∧ posts_rows s' = posts_rows blank ++ rows
    ∧ length rows = 1
    ∧ view_link_handlers s' = 0.
Proof.
  destruct (mapM (@row_of extension) [sample_post]) as [rows|] eqn:Hrows;
    [|by vm_compute in Hrows].
  destruct (@postCompleted_stops_at_bad_record extension [sample_post] [format_post]
              bare_post rows blank Hrows ltac:(by vm_compute))
    as (s' & Hs' & Hr & Hh & _).
  exists rows, s'. split; [exact Hs'|]. split; [exact Hr|]. split; [|exact Hh].
  rewrite mapM_Some in Hrows. apply Forall2_length in Hrows. by rewrite <- Hrows.
Defined.

Lemma listeners_after_load_witness :
  let s := @run extension [DOMContentLoaded; SessionError] blank in
  window_message s = true
  ∧ message_link_button_click s = true
  ∧ message_link_button_style s = None.
Proof.
  intros s.
  destruct (@listeners_after_load extension blank [DOMContentLoaded; SessionError]
              eq_refl eq_refl) as [Hw Hother].
  split; [exact Hw|]. apply Hother. discriminate.
Defined.

Lemma view_link_click_layout_witness :
  let s' := @view_link_click extension "https://priv.ly/posts/1?privlyApp=foo/bar" blank in
  ("col-lg-8" ∈ table_col_class s')
  ∧ ("col-lg-12" ∉ table_col_class s')
  ∧ ("col-lg-4" ∈ iframe_col_class s')
  ∧ iframe_col_css s' = <["display":="inherit"]> (iframe_col_css blank)
  ∧ privly_iframe s' = [].
Proof.
  intros s'.
  destruct (@view_link_click_layout extension "https://priv.ly/posts/1?privlyApp=foo/bar"
              sample_link blank) as (Ht & Hi & Hc & _ & _).
  split; [apply Ht; by left|].
  split; [intros Hin; apply Ht in Hin as [Hin|[_ Hin]]; [discriminate|by apply Hin]|].
  split; [apply Hi; by left|]. split; [exact Hc|]. by vm_compute.
Defined.
